(** * learnPYthon-ML: sorting demos, menu scripts, key logger, sales bonus

    A shallow embedding of the parts of the repository that the specification
    makes claims about, followed by the theorems that settle those claims.

    Conventions of the embedding.
    - A Python [int] is a [Z]; a Python list of ints is a [list Z].
    - A function that mutates its argument in place and returns nothing is a
      function from the list before the call to the list after it.
    - [None] in a result of type [option _] of the sorting code stands for an
      [IndexError] raised by a subscript out of range. *)

From Stdlib Require Import ZArith Lia Ascii SpecFloat.
From stdpp Require Import base numbers list sorting strings.
From Equations Require Import Equations.

Local Open Scope Z_scope.

(** ** Python lists as arrays *)

Module PyList.

(** [arr[i]] for a non-negative index: [IndexError] when out of range. *)
Definition getitem (arr : list Z) (i : nat) : option Z := arr !! i.

(** [arr[i] = v] for a non-negative index: [IndexError] when out of range. *)
Definition setitem (arr : list Z) (i : nat) (v : Z) : option (list Z) :=
  if decide (i < length arr)%nat then Some (<[i:=v]> arr) else None.

(** A value together with the equation that names it, to keep the result
    of a subscript in scope of a later recursive call. *)
Definition inspect {A : Type} (a : A) : {b : A | a = b} := exist _ a eq_refl.
Global Arguments inspect : simpl never.

(** [range(lo, hi)]: empty when [hi <= lo]. *)
Definition range (lo hi : nat) : list nat := seq lo (hi - lo).

(** [for j in js: s = body(j, s)], stopping at the first exception. *)
Fixpoint for_each {S : Type} (body : nat → S → option S) (js : list nat) (s : S)
  : option S :=
  match js with
  | [] => Some s
  | j :: js' => s' ← body j s; for_each body js' s'
  end.

End PyList.

Import PyList.

(** ** The console, exceptions and the builtins the scripts call *)

Module Console.

(** The exceptions that the scripts raise or catch, and the ones a file
    read can raise besides. *)
Inductive exn :=
  | ValueError
  | FileNotFoundError
  | PermissionError
  | IsADirectoryError
  | EmptyDataError
  | UnicodeDecodeError.

Global Instance exn_eq_dec : EqDecision exn.
Proof. solve_decision. Defined.

(** A data frame, as far as the scripts look into it: its rows. *)
Definition row := list string.
Definition frame := list row.

(** What a script does that can be observed from outside.  [Call] is a
    call into code that reads nothing from the console (scikit-learn,
    matplotlib, the timing harness). *)
Inductive action :=
  | Print (text : string)
  | PrintFrame (rows : frame)
  | Prompt (text : string)
  | Call (function : string) (args : list string).

(** How a piece of code ends.  [Blocked]: it sits in [input()] and the
    user has typed nothing more.  [OutOfFuel] only bounds the unfolding of
    [while True] in this embedding. *)
Inductive outcome (A : Type) :=
  | Returned (a : A)
  | Raised (e : exn)
  | Blocked
  | OutOfFuel.
Global Arguments Returned {A} a.
Global Arguments Raised {A} e.
Global Arguments Blocked {A}.
Global Arguments OutOfFuel {A}.

(** Code that talks to the console: from the lines still to be typed to
    its outcome, the lines left over and the actions in order. *)
Definition io (A : Type) : Type :=
  list string → outcome A * list string * list action.

Definition ret {A : Type} (a : A) : io A := λ ins, (Returned a, ins, []).

Definition bind {A B : Type} (m : io A) (f : A → io B) : io B := λ ins,
  match m ins with
  | (Returned a, ins1, tr1) =>
      let '(o, ins2, tr2) := f a ins1 in (o, ins2, tr1 ++ tr2)
  | (Raised e, ins1, tr1) => (Raised e, ins1, tr1)
  | (Blocked, ins1, tr1) => (Blocked, ins1, tr1)
  | (OutOfFuel, ins1, tr1) => (OutOfFuel, ins1, tr1)
  end.

(** With these, [x ← m; k] and [m;; k] sequence console code. *)
Global Instance io_ret : MRet io := @ret.
Global Instance io_bind : MBind io := λ A B f m, bind m f.

Definition emit (a : action) : io unit := λ ins, (Returned tt, ins, [a]).
Definition print (text : string) : io unit := emit (Print text).
Definition call (function : string) (args : list string) : io unit :=
  emit (Call function args).
Definition raise {A : Type} (e : exn) : io A := λ ins, (Raised e, ins, []).

(** [input(prompt)]: shows the prompt and takes the next line. *)
Definition input (prompt : string) : io string := λ ins,
  match ins with
  | [] => (Blocked, [], [Prompt prompt])
  | line :: ins' => (Returned line, ins', [Prompt prompt])
  end.

(** [try: body except e: handler]. *)
Definition try_except {A : Type} (body : io A) (e : exn) (handler : io A) : io A :=
  λ ins,
  match body ins with
  | (Raised e', ins1, tr1) =>
      if decide (e' = e) then
        let '(o, ins2, tr2) := handler ins1 in (o, ins2, tr1 ++ tr2)
      else (Raised e', ins1, tr1)
  | r => r
  end.

(** [while True: body], where the body says whether it ran into [break]. *)
Inductive flow := Continue | Break.

Fixpoint while_true (fuel : nat) (body : io flow) : io unit :=
  match fuel with
  | O => λ ins, (OutOfFuel, ins, [])
  | S fuel' =>
      bind body (λ fl,
        match fl with
        | Break => ret tt
        | Continue => while_true fuel' body
        end)
  end.

(** [for x in xs: body(x)]. *)
Fixpoint for_in {A : Type} (xs : list A) (body : A → io unit) : io unit :=
  match xs with
  | [] => ret tt
  | x :: xs' => bind (body x) (λ _, for_in xs' body)
  end.

Definition nl : string := String (Ascii.ascii_of_nat 10) EmptyString.

(** *** [int(str)], base 10, on a line of ASCII characters

    Surrounding white space (the characters 9 to 13 and 32, no others) is
    dropped, one sign is allowed, and the digits may be grouped by single
    underscores.  [None] is [ValueError].

    A line is a string of bytes; [py_int] is [int(str)] on the lines whose
    bytes are all below 128 ([ascii_line]).  On a line with other characters
    [int(str)] also reads the decimal digits and the white space of Unicode,
    which are not modelled: what is stated of a line through [py_int] is
    stated of an [ascii_line], by hypothesis or because [py_int] reads a
    number from it.  The interpreter's limit on the number of digits of a
    decimal string (4300 unless configured) is left out. *)
Definition is_space (c : ascii) : bool :=
  let n := Ascii.nat_of_ascii c in
  ((9 <=? n)%nat && (n <=? 13)%nat) || (n =? 32)%nat.

Definition is_digit (c : ascii) : bool :=
  let n := Ascii.nat_of_ascii c in (48 <=? n)%nat && (n <=? 57)%nat.

Definition digit_value (c : ascii) : Z := Z.of_nat (Ascii.nat_of_ascii c - 48).

Fixpoint lstrip (s : string) : string :=
  match s with
  | String c s' => if is_space c then lstrip s' else s
  | EmptyString => s
  end.

Definition strip (s : string) : string :=
  String.rev (lstrip (String.rev (lstrip s))).

Fixpoint digits (s : string) (acc : Z) (after_digit : bool) : option Z :=
  match s with
  | EmptyString => if after_digit then Some acc else None
  | String c s' =>
      if is_digit c then digits s' (acc * 10 + digit_value c) true
      else if Ascii.eqb c "_"%char && after_digit then digits s' acc false
      else None
  end.

Definition py_int (s : string) : option Z :=
  match strip s with
  | String "+"%char s' => digits s' 0 false
  | String "-"%char s' => Z.opp <$> digits s' 0 false
  | s' => digits s' 0 false
  end.

(** The lines of ASCII characters. *)
Fixpoint is_ascii (s : string) : bool :=
  match s with
  | EmptyString => true
  | String c s' => (Ascii.nat_of_ascii c <? 128)%nat && is_ascii s'
  end.

Definition ascii_line (s : string) : Prop := is_ascii s = true.

Definition int (s : string) : io Z :=
  match py_int s with
  | Some n => ret n
  | None => raise ValueError
  end.

(** [DataFrame.head(n)] is [iloc[:n]]: the first [n] rows, and for a
    negative [n] all rows but the last [-n]. *)
Definition head (n : Z) (data : frame) : frame :=
  if decide (0 ≤ n) then take (Z.to_nat n) data
  else take (length data - Z.to_nat (- n)) data.

(** The files the scripts can see: what [os.getcwd], [os.path.join],
    [os.path.exists] and [pandas.read_csv] answer. *)
Record filesystem := {
  getcwd : string;
  path_join : string → string → string;
  path_exists : string → bool;
  read_csv : string → frame + exn
}.

Definition pd_read_csv (fs : filesystem) (file_path : string) : io frame :=
  match read_csv fs file_path with
  | inl data => ret data
  | inr e => raise e
  end.

(** The menu of a script, started on the lines [ins]: a typed line feeds
    at most one [input()], so one more round than there are lines is all
    a [while True] around an [input()] can make. *)
Definition run_menu (body : io flow) : io unit := λ ins,
  while_true (S (length ins)) body ins.

End Console.

Import Console.

(** ** src/nd.py *)

Module Nd.

(** Lines 14-15: compare two neighbours and swap them.  The right-hand side
    [arr[j + 1], arr[j]] is read first, then the two stores happen left to
    right. *)
Definition bubble_step (j : nat) (arr : list Z) : option (list Z) :=
  a ← getitem arr j;
  b ← getitem arr (j + 1);
  if bool_decide (a > b) then
    t0 ← getitem arr (j + 1);
    t1 ← getitem arr j;
    arr1 ← setitem arr j t0;
    setitem arr1 (j + 1) t1
  else Some arr.

(** Line 13: [for j in range(0, n - i - 1)].  Here [i < n], so the bound is
    not negative and the truncated difference is the Python one. *)
Definition bubble_pass (n i : nat) (arr : list Z) : option (list Z) :=
  for_each bubble_step (range 0 (n - i - 1)) arr.

(** Lines 10-15. *)
Definition bubble_sort (arr : list Z) : option (list Z) :=
  let n := length arr in
  for_each (bubble_pass n) (range 0 n) arr.

(** Lines 25-32: the first [while] of the merge, on the state
    [(arr, i, j, k)]. *)
Equations? merge_loop (left_half right_half arr : list Z) (i j k : nat)
  : option (list Z * nat * nat * nat)
  by wf ((length left_half - i) + (length right_half - j))%nat lt :=
  merge_loop left_half right_half arr i j k
    with decide (i < length left_half ∧ j < length right_half)%nat => {
    | right _ := Some (arr, i, j, k);
    | left _ with getitem left_half i, getitem right_half j => {
      | Some a, Some b with decide (a < b) => {
        | left _ with setitem arr k a => {
          | Some arr1 := merge_loop left_half right_half arr1 (i + 1) j (k + 1);
          | None := None };
        | right _ with setitem arr k b => {
          | Some arr1 := merge_loop left_half right_half arr1 i (j + 1) (k + 1);
          | None := None } };
      | _, _ := None } }.
Proof. all: lia. Qed.

(** Lines 33-36 and 37-40: [while i < len(src): arr[k] = src[i]; i += 1;
    k += 1], on the state [(arr, i, k)]. *)
Equations? copy_loop (src arr : list Z) (i k : nat) : option (list Z * nat * nat)
  by wf (length src - i)%nat lt :=
  copy_loop src arr i k with decide (i < length src)%nat => {
    | right _ := Some (arr, i, k);
    | left _ with getitem src i => {
      | Some a with setitem arr k a => {
        | Some arr1 := copy_loop src arr1 (i + 1) (k + 1);
        | None := None };
      | None := None } }.
Proof. all: lia. Qed.

(** Lines 24-40: the three loops in sequence, starting from
    [i = j = k = 0]. *)
Definition merge_into (left_half right_half arr : list Z) : option (list Z) :=
  '(arr1, i, j, k) ← merge_loop left_half right_half arr 0 0 0;
  '(arr2, _, k) ← copy_loop left_half arr1 i k;
  '(arr3, _, _) ← copy_loop right_half arr2 j k;
  Some arr3.

(** Lines 17-40.  The two halves are copies ([arr[:mid]], [arr[mid:]]) that
    are sorted in place by the recursive calls and then merged back into
    [arr]. *)
Equations? merge_sort (arr : list Z) : option (list Z) by wf (length arr) lt :=
  merge_sort arr with decide (1 < length arr)%nat => {
    | right _ := Some arr;
    | left _ with merge_sort (take (length arr / 2) arr) => {
      | None := None;
      | Some left_half with merge_sort (drop (length arr / 2) arr) => {
        | None := None;
        | Some right_half := merge_into left_half right_half arr } } }.
Proof.
  all: change (Nat.divmod (length arr) 1 0 1).1 with (length arr / 2)%nat.
  - rewrite length_take. pose proof (Nat.div_lt (length arr) 2). lia.
  - rewrite length_drop.
    assert (0 < length arr / 2)%nat by (apply Nat.div_str_pos; lia). lia.
Qed.

(** A list comprehension that drops an element of the list is shorter than
    the list: used for the termination of [quick_sort]. *)
Lemma length_filter_drop (P : Z → Prop) `{!∀ x, Decision (P x)} (l : list Z) (p : Z) :
  p ∈ l → ¬ P p → (length (filter P l) < length l)%nat.
Proof.
  induction 1 as [p l|p q l _ IH]; intros Hp.
  - rewrite filter_cons_False by done.
    pose proof (length_filter P l). simpl. lia.
  - specialize (IH Hp). rewrite filter_cons. case_decide; simpl; lia.
Qed.

(** Lines 42-49.  The result is a new list; [(l ++ middle) ++ r] is Python's
    left-associated [quick_sort(left) + middle + quick_sort(right)]. *)
Equations? quick_sort (arr : list Z) : option (list Z) by wf (length arr) lt :=
  quick_sort arr with decide (length arr ≤ 1)%nat => {
    | left _ := Some arr;
    | right _ with inspect (getitem arr (length arr / 2)) => {
      | exist _ None _ := None;
      | exist _ (Some pivot) Hpivot with quick_sort (filter (λ x, x < pivot) arr) => {
        | None := None;
        | Some l with quick_sort (filter (λ x, x > pivot) arr) => {
          | None := None;
          | Some r := Some ((l ++ filter (λ x, x = pivot) arr) ++ r) } } } }.
Proof.
  all: apply list_elem_of_lookup_2 in Hpivot.
  all: apply (length_filter_drop _ _ pivot); [done | lia].
Qed.

End Nd.

(** ** src/night.py and src/eye.py

    Their [bubble_sort] and [merge_sort] are, token for token, those of
    src/nd.py. *)

Module Night.
Definition bubble_sort : list Z → option (list Z) := Nd.bubble_sort.
Definition merge_sort : list Z → option (list Z) := Nd.merge_sort.
End Night.

Module Eye.
Definition bubble_sort : list Z → option (list Z) := Nd.bubble_sort.
Definition merge_sort : list Z → option (list Z) := Nd.merge_sort.

(** Lines 97-101: the columns of shree.csv behind each menu entry. *)
Definition small_types : list string :=
  ["small_random"; "small_sorted"; "small_reverse_sorted"; "small_duplicates";
   "small_partial_sorted"].
Definition medium_types : list string :=
  ["medium_random"; "medium_sorted"; "medium_reverse_sorted"; "medium_duplicates";
   "medium_partial_sorted"].
Definition large_types : list string :=
  ["large_random"; "large_sorted"; "large_reverse_sorted"; "large_duplicates";
   "large_partial_sorted"].

(** Lines 108-111: what follows the choice of a data set. *)
Definition analyse (dataset_types : list string) : io flow :=
  call "run_sorting_analysis" dataset_types;;
  see_chart ← input "Do you want to see the chart? (y/n): ";
  (if decide (see_chart = "y" ∨ see_chart = "Y")
   then call "plot_comparison_chart" dataset_types
   else mret tt);;
  mret Continue.

(** Lines 96-111: the [if]/[elif] chain on the line typed; [continue] after
    the message skips the analysis. *)
Definition main_dispatch (choice : string) : io flow :=
  if decide (choice = "1") then analyse small_types
  else if decide (choice = "2") then analyse medium_types
  else if decide (choice = "3") then analyse large_types
  else if decide (choice = "4") then mret Break
  else print "Invalid choice. Try again.";; mret Continue.

(** Line 93. *)
Definition main_text : io unit :=
  print (nl +:+ "1. Small Data" +:+ nl +:+ "2. Medium Data" +:+ nl
         +:+ "3. Large Data" +:+ nl +:+ "4. Exit").

(** Lines 93-111: one round of the [while True]. *)
Definition main_body : io flow :=
  main_text;;
  choice ← input "Select dataset size: ";
  main_dispatch choice.

(** Lines 89-111: the file is read outside any [try]. *)
Definition main (fs : filesystem) : io unit :=
  df ← pd_read_csv fs "shree.csv";
  run_menu main_body.

End Eye.

(** ** src/shree.py *)

Module Shree.

(** Lines 12-13.  The right-hand side here is [arr[j], arr[j]]: both stores
    write the old value of [arr[j]]. *)
Definition bubble_step (j : nat) (arr : list Z) : option (list Z) :=
  a ← getitem arr j;
  b ← getitem arr (j + 1);
  if bool_decide (a > b) then
    t0 ← getitem arr j;
    t1 ← getitem arr j;
    arr1 ← setitem arr j t0;
    setitem arr1 (j + 1) t1
  else Some arr.

(** Line 11. *)
Definition bubble_pass (n i : nat) (arr : list Z) : option (list Z) :=
  for_each bubble_step (range 0 (n - i - 1)) arr.

(** Lines 8-13. *)
Definition bubble_sort (arr : list Z) : option (list Z) :=
  let n := length arr in
  for_each (bubble_pass n) (range 0 n) arr.

(** Lines 16-43: the text of src/nd.py's [merge_sort], with blank lines. *)
Definition merge_sort : list Z → option (list Z) := Nd.merge_sort.

(** Lines 95-100.  [show_chart.lower() == 'y']. *)
Definition chart_menu : io unit :=
  for_in ["random"; "sorted"; "reverse_sorted"] (λ input_type,
    show_chart ← input ("Do you want to see the chart for " +:+ input_type
                        +:+ " input? (y/n): ");
    if decide (show_chart = "y" ∨ show_chart = "Y")
    then call "show_chart_for_type" [input_type]
    else mret tt).

(** Lines 61-68: the [if]/[elif] chain on the line typed. *)
Definition menu_dispatch (choice : string) : io flow :=
  if decide (choice = "1") then
    call "run_analysis" [];; mret Continue
  else if decide (choice = "2") then
    chart_menu;; mret Continue
  else if decide (choice = "3") then
    mret Break
  else
    print "Invalid choice. Please try again.";; mret Continue.

(** Lines 56-58: the menu as printed at the start of each round. *)
Definition menu_text : io unit :=
  print (nl +:+ "1. Run Sorting Analysis");;
  print "2. Show Comparison Charts";;
  print "3. Exit".

(** Lines 56-68: one round of the [while True]. *)
Definition menu_body : io flow :=
  menu_text;;
  choice ← input "Enter your choice: ";
  menu_dispatch choice.

(** Lines 54-68. *)
Definition menu : io unit := run_menu menu_body.

End Shree.

(** ** src/ml_procedural.py *)

Module MlProcedural.

(** Lines 12-26. *)
Definition load_data (fs : filesystem) : io (option frame) :=
  let file_name := "data.csv" in
  let file_path := path_join fs (getcwd fs) file_name in
  file_path ←
    (if negb (path_exists fs file_path) then
       print ("File '" +:+ file_name
              +:+ "' not found in current directory, trying full path...");;
       mret "D:\AURO\AURO workplace\VS Code\Python\Sem 3\DataSet Analysis\data.csv"
     else mret file_path);
  try_except
    (data ← pd_read_csv fs file_path;
     print "File loaded successfully.";;
     mret (Some data))
    FileNotFoundError
    (print ("Error: The file '" +:+ file_path +:+ "' does not exist.");;
     mret None).

(** Lines 29-36. *)
Definition display_data (data : frame) : io unit :=
  try_except
    (line ← input "How many rows would you like to print? (up to 200): ";
     num_rows ← int line;
     let num_rows := if bool_decide (num_rows > 200) then 200 else num_rows in
     emit (PrintFrame (head num_rows data)))
    ValueError
    (print "Please enter a valid number.").

(** Lines 115-130. *)
Definition compare_two_algorithms : io unit :=
  print ("1. Linear Regression" +:+ nl +:+ "2. KNN");;
  line1 ← input "Choose the first algorithm to compare: ";
  algo1 ← int line1;
  line2 ← input "Choose the second algorithm to compare: ";
  algo2 ← int line2;
  (if decide (algo1 = 1) then call "linear_regression" []
   else if decide (algo1 = 2) then call "knn" []
   else mret tt);;
  (if decide (algo2 = 1) then call "linear_regression" []
   else if decide (algo2 = 2) then call "knn" []
   else mret tt).

(** Lines 133-143. *)
Definition compare_all_algorithms : io unit :=
  print "Comparing all algorithms...";;
  call "linear_regression" [];;
  call "knn" [];;
  call "kmeans_regression" [].

(** Lines 169-193: the [if]/[elif] chain on the parsed choice. *)
Definition menu_dispatch (data : frame) (choice : Z) : io flow :=
  if decide (choice = 1) then
    display_data data;; mret Continue
  else if decide (choice = 2) then
    print ("1. Linear Regression" +:+ nl +:+ "2. KNN" +:+ nl
           +:+ "3. K-Means Regression");;
    line ← input "Choose an algorithm: ";
    algo_choice ← int line;
    (if decide (algo_choice = 1) then call "linear_regression" []
     else if decide (algo_choice = 2) then call "knn" []
     else if decide (algo_choice = 3) then call "kmeans_regression" []
     else mret tt);;
    mret Continue
  else if decide (choice = 3) then
    compare_two_algorithms;; mret Continue
  else if decide (choice = 4) then
    compare_all_algorithms;; mret Continue
  else if decide (choice = 5) then
    print "Exiting program.";; mret Break
  else
    print "Invalid choice. Please try again.";; mret Continue.

(** Lines 161-166: the menu as printed at the start of each round. *)
Definition menu_text : io unit :=
  print (nl +:+ "Main Menu:");;
  print "1. Display data";;
  print "2. Choose algorithm";;
  print "3. Compare two algorithms";;
  print "4. Compare all algorithms";;
  print "5. Exit".

(** Lines 161-193: one round of the [while True]. *)
Definition menu_body (data : frame) : io flow :=
  menu_text;;
  line ← input "Enter your choice: ";
  choice ← int line;
  menu_dispatch data choice.

(** Lines 160-193. *)
Definition menu_loop (data : frame) : io unit := run_menu (menu_body data).


(** Lines 146-193.  [prepare] is [preprocess_data] (lines 39-52). *)
Definition menu (fs : filesystem) (prepare : frame → frame) : io unit :=
  data ← load_data fs;
  match data with
  | None => mret tt
  | Some data => menu_loop (prepare data)
  end.

End MlProcedural.

(** ** src/analyiz.py *)

Module Analyiz.

(** Lines 13-20. *)
Definition load_data (fs : filesystem) (file_path : string) : io (option frame) :=
  try_except
    (data ← pd_read_csv fs file_path;
     print "File loaded successfully.";;
     mret (Some data))
    FileNotFoundError
    (print ("Error: The file '" +:+ file_path +:+ "' does not exist.");;
     mret None).

(** Lines 23-25. *)
Definition display_data (data : frame) : io unit :=
  line ← input "How many rows of data do you wish to print? ";
  num_rows ← int line;
  emit (PrintFrame (head num_rows data)).

(** Lines 195-231: the [if]/[elif] chain on the line typed. *)
Definition menu_dispatch (data : frame) (choice : string) : io flow :=
  if decide (choice = "1") then
    display_data data;; mret Continue
  else if decide (choice = "2") then
    print "Choose an algorithm:";;
    print "1. Linear Regression";;
    print "2. KNN";;
    print "3. K-Means Clustering";;
    algo_choice ← input "Choose an algorithm: ";
    (if decide (algo_choice = "1") then call "linear_regression" []
     else if decide (algo_choice = "2") then call "knn" []
     else if decide (algo_choice = "3") then call "kmeans_clustering" []
     else print "Invalid choice.");;
    mret Continue
  else if decide (choice = "3") then
    print "Choose first algorithm:";;
    print "1. Linear Regression";;
    print "2. KNN";;
    algo1_choice ← input "Choose first algorithm: ";
    print "Choose second algorithm:";;
    print "1. Linear Regression";;
    print "2. KNN";;
    algo2_choice ← input "Choose second algorithm: ";
    let algo1 := if decide (algo1_choice = "1") then "Linear Regression" else "KNN" in
    let algo2 := if decide (algo2_choice = "1") then "Linear Regression" else "KNN" in
    call "compare_two_algorithms" [algo1; algo2];;
    mret Continue
  else if decide (choice = "4") then
    call "compare_all_algorithms" [];; mret Continue
  else if decide (choice = "5") then
    mret Break
  else
    print "Invalid choice.";; mret Continue.

(** Lines 187-192: the menu as printed at the start of each round. *)
Definition menu_text : io unit :=
  print (nl +:+ "Main Menu:");;
  print "1. Display data";;
  print "2. Choose algorithm";;
  print "3. Compare two algorithms";;
  print "4. Compare all algorithms";;
  print "5. Exit".

(** Lines 187-231: one round of the [while True]. *)
Definition menu_body (data : frame) : io flow :=
  menu_text;;
  choice ← input "Enter your choice: ";
  menu_dispatch data choice.

(** Lines 186-231. *)
Definition menu_loop (data : frame) : io unit := run_menu (menu_body data).


(** A Python [dict] with string keys: the items in insertion order.  A store
    to a key that is present replaces the value where it stands. *)
Definition dict_set {V : Type} (d : list (string * V)) (k : string) (v : V)
  : list (string * V) :=
  if decide (k ∈ d.*1)
  then (λ item, if decide (item.1 = k) then (k, v) else item) <$> d
  else d ++ [(k, v)].

(** Lines 75-117, on the dict [results]: the two measures are what
    scikit-learn reports for the split at hand, and [plt.bar] gets the keys
    of the dict. *)
Definition compare_two_algorithms (mse accuracy : spec_float)
    (show : spec_float → string) (algo1 algo2 : string) : io unit :=
  let results : list (string * spec_float) := [] in
  results ←
    (if decide (algo1 = "Linear Regression") then
       print ("Linear Regression MSE: " +:+ show mse);;
       mret (dict_set results "Linear Regression" mse)
     else if decide (algo1 = "KNN") then
       print ("KNN Accuracy: " +:+ show accuracy);;
       mret (dict_set results "KNN" accuracy)
     else mret results);
  results ←
    (if decide (algo2 = "Linear Regression") then
       print ("Linear Regression MSE: " +:+ show mse);;
       mret (dict_set results "Linear Regression" mse)
     else if decide (algo2 = "KNN") then
       print ("KNN Accuracy: " +:+ show accuracy);;
       mret (dict_set results "KNN" accuracy)
     else mret results);
  call "plt.bar" (results.*1).

(** The values of the dict of [compare_all_algorithms]: a float or a text. *)
Inductive value :=
  | VFloat (f : spec_float)
  | VStr (s : string).

(** Lines 122-140. *)
Definition compare_all_results (mse accuracy : spec_float) : list (string * value) :=
  let results := [] in
  let results := dict_set results "Linear Regression" (VFloat mse) in
  let results := dict_set results "KNN" (VFloat accuracy) in
  dict_set results "K-Means Clustering" (VStr "Labels generated, check console").

(** [min(items, key=...)] on floats: the first item whose key no later key
    is below.  [None] is the [ValueError] for no item at all. *)
Definition min_by_key {K : Type} (items : list (K * spec_float)) : option K :=
  match items with
  | [] => None
  | first :: later =>
      Some (fold_left (λ best item, if SFltb item.2 best.2 then item else best)
                      later first).1
  end.

(** Lines 147-150: the keys whose value is a float, with [results.get] as
    the key of the [min]. *)
Definition best_fit_algo (results : list (string * value)) : option string :=
  min_by_key (omap (λ item, match item.2 with
                            | VFloat f => Some (item.1, f)
                            | VStr _ => None
                            end) results).

(** Line 155: the heights of the bars. *)
Definition bar_heights (results : list (string * value)) : list spec_float :=
  (λ item, match item.2 with VFloat f => f | VStr _ => S754_zero false end) <$> results.

(** Lines 161-231.  [prepare] is what lines 172-177 make of the frame. *)
Definition menu (fs : filesystem) (prepare : frame → frame) : io unit :=
  let file_name := "data.csv" in
  let file_path := path_join fs (getcwd fs) file_name in
  data ← load_data fs file_path;
  match data with
  | None => mret tt
  | Some data => menu_loop (prepare data)
  end.

End Analyiz.

(** ** src/4.py, the menu script (lines 1-151) *)

Module Py4.

(** Lines 49-51; [data] is the frame read at line 26. *)
Definition display_data (data : frame) : io unit :=
  line ← input "How many rows of data would you like to print? ";
  rows_to_display ← int line;
  emit (PrintFrame (head rows_to_display data)).


(** [try: body except FileNotFoundError: ... except Exception as e: ...]:
    the first handler that fits takes the exception. *)
Definition try_except_else {A : Type} (body : io A) (on_missing : io A)
    (on_other : exn → io A) : io A := λ ins,
  match body ins with
  | (Raised e, ins1, tr1) =>
      let handler := if decide (e = FileNotFoundError) then on_missing else on_other e in
      let '(o, ins2, tr2) := handler ins1 in (o, ins2, tr1 ++ tr2)
  | r => r
  end.

(** Lines 12-151, the script as run.  [prepare] is what lines 29-47 do with
    the frame, with the exception they may end in; [str_of] is [str(e)].
    Lines 49-146 define functions, [menu] among them, and call none. *)
Definition script (fs : filesystem) (prepare : frame → frame + exn)
    (str_of : exn → string) : io unit :=
  print ("Current Working Directory: " +:+ getcwd fs);;
  let file_name := "data.csv" in
  let file_path := path_join fs (getcwd fs) file_name in
  file_path ←
    (if negb (path_exists fs file_path) then
       print ("File '" +:+ file_name
              +:+ "' not found in current directory, trying full path...");;
       mret "d:/cd/python/data.csv"
     else mret file_path);
  try_except_else
    (data ← pd_read_csv fs file_path;
     print "File loaded successfully.";;
     match prepare data with
     | inl _ => mret tt
     | inr e => raise e
     end)
    (print ("Error: The file '" +:+ file_path +:+ "' does not exist."))
    (λ e, print ("An error occurred: " +:+ str_of e)).

End Py4.

(** ** src/4.py, the sales incentive calculator (lines 154-222)

    A Python [float] is an IEEE 754 binary64 value: [spec_float] with
    precision 53 and exponent bound 1024. *)

Module SalesIncentive.

Definition prec : Z := 53.
Definition emax : Z := 1024.

(** The float that an integer literal denotes where the code mixes it with
    floats ([raw_sales > 1000], [raw_sales / 100000]). *)
Definition float_of_int (n : Z) : spec_float := binary_normalize prec emax n 0 false.

Record slab := { slab_min : spec_float; slab_max : spec_float; slab_bonus : Z }.

(** Lines 162-167. *)
Definition bonus_slabs : list slab :=
  [ {| slab_min := float_of_int 0;  slab_max := float_of_int 5;   slab_bonus := 0 |};
    {| slab_min := float_of_int 5;  slab_max := float_of_int 10;  slab_bonus := 10 |};
    {| slab_min := float_of_int 10; slab_max := float_of_int 15;  slab_bonus := 12 |};
    {| slab_min := float_of_int 15; slab_max := float_of_int 999; slab_bonus := 15 |} ].

(** Lines 191-195. *)
Definition sales_lakh (raw_sales : spec_float) : spec_float :=
  if SFltb (float_of_int 1000) raw_sales
  then SFdiv prec emax raw_sales (float_of_int 100000)
  else raw_sales.

(** Line 200: [slab["min"] <= sales_lakh < slab["max"]]. *)
Definition in_slab (sales : spec_float) (s : slab) : bool :=
  SFleb (slab_min s) sales && SFltb sales (slab_max s).

(** Lines 199-202: the [for] with its [break], on the variable
    [matched_bonus]. *)
Fixpoint match_slabs (slabs : list slab) (sales : spec_float) (matched_bonus : Z) : Z :=
  match slabs with
  | [] => matched_bonus
  | s :: slabs' =>
      if in_slab sales s then slab_bonus s
      else match_slabs slabs' sales matched_bonus
  end.

(** Lines 188-202: the bonus rate for a parsed input. *)
Definition matched_bonus (raw_sales : spec_float) : Z :=
  match_slabs bonus_slabs (sales_lakh raw_sales) 0.

End SalesIncentive.

(** ** src/game_key_logger.py *)

Module GameKeyLogger.

(** What pynput hands to a callback: a [KeyCode], whose [char] may be
    [None], a member of the enumeration [keyboard.Key], or [None] for a key
    it does not know. *)
Inductive key :=
  | KeyCode (char : option string)
  | Key (name : string)
  | UnknownKey.

Global Instance key_eq_dec : EqDecision key.
Proof. solve_decision. Defined.

Definition esc : key := Key "esc".

(** What the logger has written so far: the lines on the terminal and the
    lines appended to [key_log.txt]. *)
Record log := { stdout : list string; key_log : list string }.

(** A callback returns [None] ([None] here) or [False] ([Some false]). *)
Definition callback_result : Type := option bool.

(** Lines 7-10: [key.char], or [str(key)] when the key has no such
    attribute.  A [char] that is [None] is formatted as the text [None]. *)
Definition key_data (k : key) : string :=
  match k with
  | KeyCode (Some c) => c
  | KeyCode None => "None"
  | Key name => "Key." +:+ name
  | UnknownKey => "None"
  end.

(** Lines 12-13; [now] is the text of [datetime.now()] at the call. *)
Definition log_entry (k : key) (now : string) : string :=
  "[" +:+ now +:+ "] Key Pressed: " +:+ key_data k.

(** Lines 6-18. *)
Definition on_press (k : key) (now : string) (st : log) : log * callback_result :=
  ({| stdout := stdout st ++ [log_entry k now];
      key_log := key_log st ++ [log_entry k now +:+ nl] |}, None).

(** Lines 20-24. *)
Definition on_release (k : key) (st : log) : log * callback_result :=
  if decide (k = esc) then
    ({| stdout := stdout st ++ [nl +:+ "[Logger Stopped]"];
        key_log := key_log st |}, Some false)
  else (st, None).

Inductive event :=
  | Press (k : key) (now : string)
  | Release (k : key).

Global Instance event_eq_dec : EqDecision event.
Proof. solve_decision. Defined.

(** Lines 29-30: the listener calls the callback of each event in turn and
    stops as soon as one returns [False].  The result says whether it is
    still running once the events are used up. *)
Fixpoint listener (events : list event) (st : log) : log * bool :=
  match events with
  | [] => (st, true)
  | ev :: events' =>
      let '(st', r) :=
        match ev with
        | Press k now => on_press k now st
        | Release k => on_release k st
        end in
      if decide (r = Some false) then (st', false) else listener events' st'
  end.

End GameKeyLogger.

(** ** Vocabulary of the statements *)

(** [ordered_from arr s]: every element at an index [q >= s] is at least as
    large as every element before it. *)
Definition ordered_from (arr : list Z) (s : nat) : Prop :=
  ∀ p q x y, (p ≤ q)%nat → (s ≤ q)%nat →
             arr !! p = Some x → arr !! q = Some y → x ≤ y.

(** [max_at arr j]: [arr[j]] is a maximum of [arr[0..j]]. *)
Definition max_at (arr : list Z) (j : nat) : Prop :=
  ∀ p x y, (p ≤ j)%nat → arr !! p = Some x → arr !! j = Some y → x ≤ y.

(** The two copy loops of lines 33-40 of src/nd.py, run from the state in
    which the first loop stopped. *)
Definition finish_merge (left_half right_half : list Z)
    (st : list Z * nat * nat * nat) : option (list Z) :=
  let '(arr1, i, j, k) := st in
  '(arr2, _, k) ← Nd.copy_loop left_half arr1 i k;
  '(arr3, _, _) ← Nd.copy_loop right_half arr2 j k;
  Some arr3.

(** [tame m]: [m] hands back a suffix of the lines it was given, and it is
    not cut short by the bound on loop unfolding. *)
Definition tame {A : Type} (m : io A) : Prop :=
  ∀ ins o ins' tr, m ins = (o, ins', tr) → ins' `suffix_of` ins ∧ o ≠ OutOfFuel.

(** [quiet m]: [m] raises nothing. *)
Definition quiet {A : Type} (m : io A) : Prop :=
  ∀ ins e ins' tr, m ins ≠ (Raised e, ins', tr).

(** The path that [load_data] of src/ml_procedural.py reads, and what it
    has printed before the read. *)
Definition ml_file_path (fs : filesystem) : string :=
  if path_exists fs (path_join fs (getcwd fs) "data.csv")
  then path_join fs (getcwd fs) "data.csv"
  else "D:\AURO\AURO workplace\VS Code\Python\Sem 3\DataSet Analysis\data.csv".

Definition ml_notice (fs : filesystem) : list action :=
  if path_exists fs (path_join fs (getcwd fs) "data.csv") then []
  else [Print "File 'data.csv' not found in current directory, trying full path..."].

(** What the specification says of a [load_data] that reads [file_path]
    after the actions [before], and ends in [r]. *)
Definition loads_or_reports (fs : filesystem) (file_path : string)
    (before : list action) (ins : list string)
    (r : outcome (option frame) * list string * list action) : Prop :=
  (∀ data, read_csv fs file_path = inl data →
     r = (Returned (Some data), ins, before ++ [Print "File loaded successfully."])) ∧
  (read_csv fs file_path = inr FileNotFoundError →
     r = (Returned None, ins,
          before ++ [Print ("Error: The file '" +:+ file_path +:+ "' does not exist.")])) ∧
  (r.1.1 = Returned None → read_csv fs file_path = inr FileNotFoundError) ∧
  (∀ e, e ≠ FileNotFoundError → read_csv fs file_path = inr e →
     r = (Raised e, ins, before)).

(** A file system with one missing file, one file that may not be read, and
    every other file readable. *)
Definition demo_fs : filesystem :=
  {| getcwd := "/home/u";
     path_join := λ a b, a +:+ "/" +:+ b;
     path_exists := λ p, bool_decide (p ≠ "gone.csv");
     read_csv := λ p, if decide (p = "gone.csv") then inr FileNotFoundError
                      else if decide (p = "locked.csv") then inr PermissionError
                      else inl [["1"; "2"]] |}.

(** The lines that [on_press] prints for the presses among [events]. *)
Definition pressed (events : list GameKeyLogger.event) : list string :=
  flat_map (λ ev, match ev with
                  | GameKeyLogger.Press k now => [GameKeyLogger.log_entry k now]
                  | GameKeyLogger.Release _ => []
                  end) events.

(** The largest value so far, at every position: [m] is the largest value
    before the list. *)
Fixpoint running_max_from (m : Z) (l : list Z) : list Z :=
  match l with
  | [] => []
  | x :: l' => Z.max m x :: running_max_from (Z.max m x) l'
  end.

(** The sum of a list of integers. *)
Definition sumZ (l : list Z) : Z := foldr Z.add 0 l.

Definition running_max (l : list Z) : list Z :=
  match l with
  | [] => []
  | x :: l' => x :: running_max_from x l'
  end.

(** [complains m]: when [m] raises, it raises [ValueError], and one of the
    lines it was given does not read as a number. *)
Definition complains {A : Type} (m : io A) : Prop :=
  ∀ ins e ins' tr, m ins = (Raised e, ins', tr) →
    e = ValueError ∧ ∃ line, line ∈ ins ∧ py_int line = None.

(** The question of [chart_menu] of src/shree.py for one input type, and
    what follows the answer. *)
Definition chart_question (input_type answer : string) : list action :=
  Prompt ("Do you want to see the chart for " +:+ input_type +:+ " input? (y/n): ")
  :: (if decide (answer = "y" ∨ answer = "Y")
      then [Call "show_chart_for_type" [input_type]] else []).

(** The menu of src/shree.py as printed at the start of a round, with its
    prompt. *)
Definition shree_menu_shown : list action :=
  [Print (nl +:+ "1. Run Sorting Analysis"); Print "2. Show Comparison Charts";
   Print "3. Exit"; Prompt "Enter your choice: "].

(** The menu of src/analyiz.py and src/ml_procedural.py as printed at the
    start of a round, with its prompt. *)
Definition main_menu_shown : list action :=
  [Print (nl +:+ "Main Menu:"); Print "1. Display data";
   Print "2. Choose algorithm"; Print "3. Compare two algorithms";
   Print "4. Compare all algorithms"; Print "5. Exit";
   Prompt "Enter your choice: "].

(** What [compare_two_algorithms] of src/ml_procedural.py runs for one
    algorithm number. *)
Definition ml_algorithm_run (algo : Z) : list action :=
  if decide (algo = 1) then [Call "linear_regression" []]
  else if decide (algo = 2) then [Call "knn" []]
  else [].

(** The line that [compare_two_algorithms] of src/analyiz.py prints for an
    algorithm. *)
Definition analyiz_report (mse accuracy : spec_float) (show : spec_float → string)
    (algo : string) : string :=
  if decide (algo = "Linear Regression") then "Linear Regression MSE: " +:+ show mse
  else "KNN Accuracy: " +:+ show accuracy.

(** Whether an action shows a prompt. *)
Definition is_prompt (a : action) : Prop :=
  match a with Prompt _ => True | _ => False end.

(** The bonus rate for a sales value in lakhs (lines 198-202 of src/4.py). *)
Definition bonus_rate (sales : spec_float) : Z :=
  SalesIncentive.match_slabs SalesIncentive.bonus_slabs sales 0.

(** * Theorems *)

(** ** Loops *)

Section ForEach.
Context {S : Type} (body : nat → S → option S).

(** Invariant rule for [for j in range(lo, lo + cnt)]: the loop finishes
    without an exception and the invariant holds at the exit index. *)
Lemma for_each_seq_inv (Inv : nat → S → Prop) (cnt lo : nat) (s : S) :
  Inv lo s →
  (∀ j t, (lo ≤ j < lo + cnt)%nat → Inv j t →
          ∃ t', body j t = Some t' ∧ Inv (j + 1)%nat t') →
  ∃ s', for_each body (seq lo cnt) s = Some s' ∧ Inv (lo + cnt)%nat s'.
Proof.
  revert lo s. induction cnt as [|cnt IH]; intros lo s Hs Hbody; simpl.
  - exists s. by rewrite Nat.add_0_r.
  - destruct (Hbody lo s) as (t & -> & Ht); [lia | done |]. simpl.
    replace (lo + Datatypes.S cnt)%nat with (lo + 1 + cnt)%nat by lia.
    replace (Datatypes.S lo) with (lo + 1)%nat by lia.
    apply IH; [done |]. intros j u Hj. apply Hbody. lia.
Qed.
End ForEach.

(** ** Arrays: what a subscript store does to the other subscripts *)

Lemma setitem_Some (arr : list Z) (i : nat) (v : Z) :
  (i < length arr)%nat → setitem arr i v = Some (<[i:=v]> arr).
Proof. intros. unfold setitem. by rewrite decide_True. Qed.

Lemma swap_Permutation (arr : list Z) (j : nat) (a b : Z) :
  arr !! j = Some a → arr !! (j + 1)%nat = Some b →
  <[(j + 1)%nat:=a]> (<[j:=b]> arr) ≡ₚ arr.
Proof.
  revert arr. induction j as [|j IH]; intros [|x [|y arr]] Ha Hb; simplify_eq/=.
  - apply perm_swap.
  - constructor. by apply (IH (y :: arr)).
Qed.

Lemma ordered_from_0_Sorted (arr : list Z) : ordered_from arr 0 → Sorted Z.le arr.
Proof.
  induction arr as [|x arr IH]; intros H; [constructor |].
  constructor.
  - apply IH. intros p q a b Hpq _ Ha Hb.
    apply (H (Datatypes.S p) (Datatypes.S q)); [lia | lia | done | done].
  - destruct arr as [|y arr]; constructor.
    by apply (H 0%nat 1%nat); [lia | lia | |].
Qed.

(** ** Bubble sort (src/nd.py, src/night.py, src/eye.py) *)

Lemma bubble_step_eq (arr : list Z) (j : nat) (a b : Z) :
  arr !! j = Some a → arr !! (j + 1)%nat = Some b →
  Nd.bubble_step j arr =
    Some (if bool_decide (a > b) then <[(j + 1)%nat:=a]> (<[j:=b]> arr) else arr).
Proof.
  intros Ha Hb. unfold Nd.bubble_step, getitem. rewrite Ha, Hb. simpl.
  case_bool_decide; [|done]. simpl.
  rewrite setitem_Some by (by eapply lookup_lt_Some). simpl.
  rewrite setitem_Some by (rewrite length_insert; by eapply lookup_lt_Some).
  done.
Qed.

(** Reading a swapped array: every subscript is traced back to the array
    before the swap. *)
Lemma lookup_swap (arr : list Z) (j p : nat) (a b x : Z) :
  <[(j + 1)%nat:=a]> (<[j:=b]> arr) !! p = Some x →
  (p = (j + 1)%nat ∧ x = a) ∨ (p = j ∧ x = b) ∨
  (p ≠ j ∧ p ≠ (j + 1)%nat ∧ arr !! p = Some x).
Proof.
  intros [(<- & <- & _)|(? & [(<- & <- & _)|(? & ?)]%list_lookup_insert_Some)]
    %list_lookup_insert_Some; auto.
Qed.

Lemma bubble_step_inv (arr : list Z) (s j : nat) :
  (j + 1 < s)%nat → (s ≤ length arr)%nat →
  ordered_from arr s → max_at arr j →
  ∃ arr', Nd.bubble_step j arr = Some arr' ∧ length arr' = length arr ∧
          arr' ≡ₚ arr ∧ ordered_from arr' s ∧ max_at arr' (j + 1).
Proof.
  intros Hj Hs Hord Hmax.
  destruct (lookup_lt_is_Some_2 arr j) as [a Ha]; [lia |].
  destruct (lookup_lt_is_Some_2 arr (j + 1)) as [b Hb]; [lia |].
  rewrite (bubble_step_eq _ _ _ _ Ha Hb). eexists; split; [done |].
  case_bool_decide as Hab.
  - split; [by rewrite !length_insert |].
    split; [by apply swap_Permutation |]. split.
    + intros p q x y Hpq Hq Hx Hy.
      apply lookup_swap in Hy as [[? _]|[[? _]|(_ & _ & Hy)]]; [lia | lia |].
      apply lookup_swap in Hx as [[_ ->]|[[_ ->]|(_ & _ & Hx)]].
      * apply (Hord j q); [lia | lia | done | done].
      * apply (Hord (j + 1)%nat q); [lia | lia | done | done].
      * by apply (Hord p q).
    + intros p x y Hp Hx Hy.
      apply lookup_swap in Hy as [[_ ->]|[[? _]|(_ & ? & _)]]; [| lia | lia].
      apply lookup_swap in Hx as [[_ ->]|[[_ ->]|(? & ? & Hx)]]; [lia | lia |].
      apply (Hmax p); [lia | done | done].
  - do 3 (split; [done |]).
    intros p x y Hp Hx Hy. assert (y = b) as -> by congruence.
    destruct (decide (p = (j + 1)%nat)) as [->|]; [assert (x = b) by congruence; lia |].
    assert (x ≤ a) by (apply (Hmax p); [lia | done | done]). lia.
Qed.

Lemma bubble_pass_inv (arr : list Z) (n i : nat) :
  length arr = n → (i < n)%nat → ordered_from arr (n - i) →
  ∃ arr', Nd.bubble_pass n i arr = Some arr' ∧ length arr' = n ∧
          arr' ≡ₚ arr ∧ ordered_from arr' (n - (i + 1)).
Proof.
  intros Hn Hi Hord. unfold Nd.bubble_pass, range. rewrite Nat.sub_0_r.
  destruct (for_each_seq_inv Nd.bubble_step
    (λ j t, length t = n ∧ t ≡ₚ arr ∧ ordered_from t (n - i) ∧ max_at t j)
    (n - i - 1) 0 arr) as (arr' & Hrun & Hlen & Hperm & Hord' & Hmax).
  - do 3 (split; [done |]). intros p x y Hp Hx Hy.
    assert (p = 0%nat) as -> by lia. assert (x = y) by congruence. lia.
  - intros j t Hj (Hlen & Hperm & Hord' & Hmax).
    destruct (bubble_step_inv t (n - i) j) as (t' & -> & ? & ? & ? & ?);
      [lia | lia | done | done |].
    exists t'. split; [done |]. split; [congruence |].
    split; [by etrans |]. done.
  - exists arr'. do 3 (split; [done |]).
    intros p q x y Hpq Hq Hx Hy.
    destruct (decide (q = (n - i - 1)%nat)) as [->|].
    + by apply (Hmax p x y).
    + apply (Hord' p q); [lia | lia | done | done].
Qed.

Lemma bubble_sort_inv (arr : list Z) :
  ∃ arr', Nd.bubble_sort arr = Some arr' ∧ arr' ≡ₚ arr ∧ Sorted Z.le arr'.
Proof.
  unfold Nd.bubble_sort, range. rewrite Nat.sub_0_r.
  destruct (for_each_seq_inv (Nd.bubble_pass (length arr))
    (λ i t, length t = length arr ∧ t ≡ₚ arr ∧ ordered_from t (length arr - i))
    (length arr) 0 arr) as (arr' & Hrun & Hlen & Hperm & Hord).
  - do 2 (split; [done |]). intros p q x y _ Hq _ Hy.
    apply lookup_lt_Some in Hy. lia.
  - intros i t Hi (Hlen & Hperm & Hord).
    destruct (bubble_pass_inv t (length arr) i) as (t' & -> & ? & ? & ?);
      [done | lia | done |].
    exists t'. split; [done |]. split; [done |]. split; [by etrans | done].
  - exists arr'. split; [done |]. split; [done |].
    apply ordered_from_0_Sorted. by rewrite Nat.sub_diag in Hord.
Qed.

(** ** Merge sort (src/nd.py, src/shree.py, src/eye.py) *)

Lemma take_S_insert (arr : list Z) (k : nat) (v : Z) :
  (k < length arr)%nat → take (Datatypes.S k) (<[k:=v]> arr) = take k arr ++ [v].
Proof.
  intros Hk. rewrite (take_S_r _ _ v) by (by apply list_lookup_insert_eq).
  by rewrite take_insert_ge.
Qed.

(** The copy loops append the rest of [src] after the first [k] cells. *)
Lemma copy_loop_spec (src : list Z) (d : nat) :
  ∀ (arr : list Z) (i k : nat),
    d = (length src - i)%nat → (i ≤ length src)%nat → (k + d ≤ length arr)%nat →
    ∃ arr', Nd.copy_loop src arr i k = Some (arr', length src, (k + d)%nat) ∧
            length arr' = length arr ∧
            take (k + d) arr' = take k arr ++ drop i src.
Proof.
  induction d as [|d IH]; intros arr i k Hd Hi Hk; simp copy_loop.
  - destruct (decide (i < length src)%nat); [lia |]. simpl.
    assert (i = length src) as -> by lia.
    exists arr. rewrite Nat.add_0_r, drop_all, app_nil_r. done.
  - destruct (decide (i < length src)%nat); [| lia]. simpl.
    destruct (lookup_lt_is_Some_2 src i) as [a Ha]; [done |].
    unfold getitem. rewrite Ha. simpl.
    rewrite setitem_Some by lia. simpl.
    destruct (IH (<[k:=a]> arr) (i + 1)%nat (k + 1)%nat) as (arr' & -> & Hlen & Htake);
      [lia | lia | rewrite length_insert; lia |].
    exists arr'. replace (k + 1 + d)%nat with (k + Datatypes.S d)%nat in * by lia.
    split; [done |]. split; [by rewrite Hlen, length_insert |].
    rewrite Htake, (drop_S _ _ _ Ha), !Nat.add_1_r, take_S_insert by lia.
    by rewrite <- app_assoc.
Qed.

Lemma merge_into_unfold (left_half right_half arr : list Z) :
  Nd.merge_into left_half right_half arr =
    Nd.merge_loop left_half right_half arr 0 0 0 ≫= finish_merge left_half right_half.
Proof.
  unfold Nd.merge_into, finish_merge.
  by destruct (Nd.merge_loop left_half right_half arr 0 0 0) as [[[[??]?]?]|].
Qed.

Lemma finish_merge_spec (L R arr : list Z) (i j k : nat) :
  ¬ (i < length L ∧ j < length R)%nat →
  (i ≤ length L)%nat → (j ≤ length R)%nat → k = (i + j)%nat →
  length arr = (length L + length R)%nat →
  finish_merge L R (arr, i, j, k) =
    Some (take k arr ++ list_merge Z.lt (drop i L) (drop j R)).
Proof.
  intros Hexit Hi Hj Hk Hlen. unfold finish_merge.
  destruct (copy_loop_spec L (length L - i) arr i k)
    as (arr2 & -> & Hlen2 & Htake2); [done | done | lia |]. simpl.
  destruct (copy_loop_spec R (length R - j) arr2 j (k + (length L - i)))
    as (arr3 & -> & Hlen3 & Htake3); [done | done | lia |]. simpl.
  rewrite take_ge in Htake3 by lia. rewrite Htake3, Htake2, <- app_assoc.
  do 2 f_equal.
  destruct (decide (i = length L)) as [->|].
  - by rewrite drop_all, list_merge_nil_l.
  - assert (j = length R) as -> by lia.
    by rewrite drop_all, list_merge_nil_r, app_nil_r.
Qed.

(** The three loops together compute the merge of what is left of the two
    halves, after the cells already written. *)
Lemma merge_loop_spec (L R : list Z) (d : nat) :
  ∀ (arr : list Z) (i j k : nat),
    d = ((length L - i) + (length R - j))%nat →
    (i ≤ length L)%nat → (j ≤ length R)%nat → k = (i + j)%nat →
    length arr = (length L + length R)%nat →
    Nd.merge_loop L R arr i j k ≫= finish_merge L R =
      Some (take k arr ++ list_merge Z.lt (drop i L) (drop j R)).
Proof.
  induction d as [|d IH]; intros arr i j k Hd Hi Hj Hk Hlen; simp merge_loop;
    destruct (decide (i < length L ∧ j < length R)%nat) as [[Hi' Hj']|Hexit]; simpl;
    try lia; try (by apply finish_merge_spec).
  destruct (lookup_lt_is_Some_2 L i) as [a Ha]; [done |].
  destruct (lookup_lt_is_Some_2 R j) as [b Hb]; [done |].
  unfold getitem. rewrite Ha. simpl. unfold getitem. rewrite Hb. simpl.
  rewrite (drop_S _ _ _ Ha), (drop_S _ _ _ Hb), list_merge_cons.
  destruct (decide (a < b)); simpl; rewrite setitem_Some by lia; simpl.
  - rewrite (IH (<[k:=a]> arr) (i + 1)%nat j (k + 1)%nat);
      [| lia | lia | lia | lia | by rewrite length_insert].
    rewrite !Nat.add_1_r, take_S_insert, <- app_assoc, (drop_S _ _ _ Hb) by lia.
    done.
  - rewrite (IH (<[k:=b]> arr) i (j + 1)%nat (k + 1)%nat);
      [| lia | lia | lia | lia | by rewrite length_insert].
    rewrite !Nat.add_1_r, take_S_insert, <- app_assoc, (drop_S _ _ _ Ha) by lia.
    done.
Qed.

Lemma merge_into_spec (L R arr : list Z) :
  length arr = (length L + length R)%nat →
  Nd.merge_into L R arr = Some (list_merge Z.lt L R).
Proof.
  intros Hlen. rewrite merge_into_unfold.
  by rewrite (merge_loop_spec L R _ arr 0 0 0 eq_refl) by (done || lia).
Qed.

(** Merging with the strict test of line 26 keeps non-decreasing order. *)
Lemma HdRel_merge_lt (x : Z) (l1 l2 : list Z) :
  HdRel Z.le x l1 → HdRel Z.le x l2 → HdRel Z.le x (list_merge Z.lt l1 l2).
Proof.
  intros [|y1 l1' H1] [|y2 l2' H2];
    rewrite ?list_merge_nil_l, ?list_merge_nil_r, ?list_merge_cons;
    try case_decide; by constructor.
Qed.

Lemma Sorted_merge_lt (l1 l2 : list Z) :
  Sorted Z.le l1 → Sorted Z.le l2 → Sorted Z.le (list_merge Z.lt l1 l2).
Proof.
  revert l2. induction l1 as [|x1 l1 IH1]; intros l2 H1 H2.
  { by rewrite list_merge_nil_l. }
  induction l2 as [|x2 l2 IH2].
  { by rewrite list_merge_nil_r. }
  rewrite list_merge_cons.
  pose proof (Sorted_inv H1) as [H1s H1h].
  pose proof (Sorted_inv H2) as [H2s H2h].
  case_decide.
  - constructor; [by apply IH1 |].
    apply HdRel_merge_lt; [done | constructor; lia].
  - constructor; [by apply IH2 |].
    apply HdRel_merge_lt; [constructor; lia | done].
Qed.

Lemma merge_sort_spec (n : nat) :
  ∀ arr : list Z, (length arr < n)%nat →
    ∃ arr', Nd.merge_sort arr = Some arr' ∧ arr' ≡ₚ arr ∧ Sorted Z.le arr'.
Proof.
  induction n as [|n IH]; intros arr Hn; [lia |]. simp merge_sort.
  destruct (decide (1 < length arr)%nat) as [Hlen|Hlen]; simpl.
  all: change (Nat.divmod (length arr) 1 0 1).1 with (length arr / 2)%nat.
  - assert (0 < length arr / 2 < length arr)%nat as Hmid.
    { split; [apply Nat.div_str_pos | apply Nat.div_lt]; lia. }
    destruct (IH (take (length arr / 2) arr)) as (L & -> & HLp & HLs).
    { rewrite length_take. lia. }
    simpl. change (Nat.divmod (length arr) 1 0 1).1 with (length arr / 2)%nat.
    destruct (IH (drop (length arr / 2) arr)) as (R & -> & HRp & HRs).
    { rewrite length_drop. lia. }
    simpl. exists (list_merge Z.lt L R). split.
    + apply merge_into_spec.
      rewrite (Permutation_length HLp), (Permutation_length HRp).
      rewrite length_take, length_drop. lia.
    + split; [| by apply Sorted_merge_lt].
      by rewrite merge_Permutation, HLp, HRp, take_drop.
  - exists arr. split; [done |]. split; [done |].
    destruct arr as [|x [|y arr]]; [constructor | repeat constructor |].
    simpl in Hlen. lia.
Qed.

(** ** Quick sort (src/nd.py) *)

(** The three comprehensions of lines 46-48 split the list. *)
Lemma partition3_Permutation (pivot : Z) (arr : list Z) :
  (filter (λ x, x < pivot) arr ++ filter (λ x, x = pivot) arr)
    ++ filter (λ x, x > pivot) arr ≡ₚ arr.
Proof.
  induction arr as [|x arr IH]; [done |].
  rewrite !filter_cons. repeat case_decide; try lia.
  - simpl. by constructor.
  - rewrite <- app_assoc. simpl. rewrite <- Permutation_middle.
    constructor. by rewrite app_assoc.
  - rewrite <- Permutation_middle. by constructor.
Qed.

Lemma StronglySorted_constant (pivot : Z) (l : list Z) :
  Forall (λ x, x = pivot) l → StronglySorted Z.le l.
Proof.
  induction 1 as [|x l -> Hl IH]; constructor; [done |].
  eapply Forall_impl; [done |]. simpl. lia.
Qed.

Lemma quick_sort_spec (n : nat) :
  ∀ arr : list Z, (length arr < n)%nat →
    ∃ res, Nd.quick_sort arr = Some res ∧ res ≡ₚ arr ∧ StronglySorted Z.le res.
Proof.
  induction n as [|n IH]; intros arr Hn; [lia |]. simp quick_sort.
  destruct (decide (length arr ≤ 1)%nat) as [Hlen|Hlen]; simp quick_sort.
  { exists arr. do 2 (split; [done |]).
    destruct arr as [|x [|y arr]]; [constructor | repeat constructor |].
    simpl in Hlen. lia. }
  destruct (inspect (getitem arr (length arr / 2))) as [[pivot|] Hpivot]; simpl.
  2: { apply lookup_ge_None_1 in Hpivot.
       pose proof (Nat.div_lt (length arr) 2). lia. }
  pose proof (list_elem_of_lookup_2 _ _ _ Hpivot) as Hin.
  destruct (IH (filter (λ x, x < pivot) arr)) as (l & -> & Hlp & Hls).
  { pose proof (Nd.length_filter_drop (λ x, x < pivot) arr pivot Hin). lia. }
  simpl.
  destruct (IH (filter (λ x, x > pivot) arr)) as (r & -> & Hrp & Hrs).
  { pose proof (Nd.length_filter_drop (λ x, x > pivot) arr pivot Hin). lia. }
  simpl. eexists. split; [done |]. split.
  { by rewrite Hlp, Hrp, partition3_Permutation. }
  apply StronglySorted_app_2; [| apply StronglySorted_app_2 |]; try done.
  - intros x y [Hx|Hx]%elem_of_app Hy.
    + rewrite Hlp in Hx. rewrite Hrp in Hy.
      apply list_elem_of_filter in Hx as [? _], Hy as [? _]. lia.
    + rewrite Hrp in Hy.
      apply list_elem_of_filter in Hx as [? _], Hy as [? _]. lia.
  - intros x y Hx Hy. rewrite Hlp in Hx.
    apply list_elem_of_filter in Hx as [? _], Hy as [? _]. lia.
  - apply (StronglySorted_constant pivot), Forall_forall.
    by intros x [? _]%list_elem_of_filter.
Qed.

(** ** The sorting claims *)

(** C4: for every list of integers, [bubble_sort] of src/nd.py, src/night.py
    and src/eye.py finishes without an exception and leaves the list as a
    permutation of the input in non-decreasing order. *)
Theorem C4_bubble_sort_sorts (arr : list Z) :
  ∃ arr', Nd.bubble_sort arr = Some arr' ∧
          Night.bubble_sort arr = Some arr' ∧
          Eye.bubble_sort arr = Some arr' ∧
          arr' ≡ₚ arr ∧ Sorted Z.le arr'.
Proof.
  destruct (bubble_sort_inv arr) as (arr' & Hrun & Hperm & Hsorted).
  exists arr'. unfold Night.bubble_sort, Eye.bubble_sort. auto.
Qed.

(** C1: [bubble_sort] of src/shree.py does not keep the elements of its
    input: on [[2, 1]] it leaves [[2, 2]], which is no permutation of the
    input. *)
Theorem C1_shree_bubble_sort_overwrites :
  Shree.bubble_sort [2; 1] = Some [2; 2] ∧ ¬ ([2; 2] ≡ₚ [2; 1]).
Proof.
  split; [reflexivity |].
  intros H. symmetry in H. apply (Permutation_in 1) in H; simpl in *.
  - destruct H as [?|[?|[]]]; lia.
  - auto.
Qed.

(** C3: for every list of integers, [merge_sort] of src/nd.py, src/shree.py
    and src/eye.py finishes without an exception and leaves the list as a
    permutation of the input in non-decreasing order. *)
Theorem C3_merge_sort_sorts (arr : list Z) :
  ∃ arr', Nd.merge_sort arr = Some arr' ∧
          Shree.merge_sort arr = Some arr' ∧
          Eye.merge_sort arr = Some arr' ∧
          arr' ≡ₚ arr ∧ Sorted Z.le arr'.
Proof.
  destruct (merge_sort_spec (S (length arr)) arr) as (arr' & Hrun & Hperm & Hsorted);
    [lia |].
  exists arr'. unfold Shree.merge_sort, Eye.merge_sort. auto.
Qed.

(** C5: for every list of integers, [quick_sort] of src/nd.py returns a
    list that is a permutation of its input in non-decreasing order. *)
Theorem C5_quick_sort_sorts (arr : list Z) :
  ∃ res, Nd.quick_sort arr = Some res ∧ res ≡ₚ arr ∧ Sorted Z.le res.
Proof.
  destruct (quick_sort_spec (S (length arr)) arr) as (res & Hrun & Hperm & Hsorted);
    [lia |].
  exists res. split; [done |]. split; [done |]. by apply StronglySorted_Sorted.
Qed.

(** ** Console code *)

Section Tame.
Context {A B : Type}.

Lemma tame_ret (a : A) : tame (mret a).
Proof. intros ins o ins' tr [= <- <- <-]. done. Qed.

Lemma tame_emit (a : action) : tame (emit a).
Proof. intros ins o ins' tr [= <- <- <-]. done. Qed.

Lemma tame_raise (e : exn) : tame (@raise A e).
Proof. intros ins o ins' tr [= <- <- <-]. done. Qed.

Lemma tame_input (prompt : string) : tame (input prompt).
Proof.
  intros [|line ins] o ins' tr [= <- <- <-]; [done |].
  split; [by apply suffix_cons_r | done].
Qed.

Lemma tame_bind (m : io A) (f : A → io B) :
  tame m → (∀ a, tame (f a)) → tame (m ≫= f).
Proof.
  intros Hm Hf ins o ins' tr. unfold mbind, io_bind, bind.
  destruct (m ins) as [[o1 ins1] tr1] eqn:Em.
  destruct (Hm _ _ _ _ Em) as [Hsuf Hfuel].
  destruct o1 as [a|e| |]; try (intros [= <- <- <-]; done); [].
  destruct (f a ins1) as [[o2 ins2] tr2] eqn:Ef.
  destruct (Hf _ _ _ _ _ Ef) as [Hsuf2 Hfuel2].
  intros [= <- <- <-]. split; [by etrans | done].
Qed.

Lemma tame_try_except (body handler : io A) (e : exn) :
  tame body → tame handler → tame (try_except body e handler).
Proof.
  intros Hb Hh ins o ins' tr. unfold try_except.
  destruct (body ins) as [[o1 ins1] tr1] eqn:Eb.
  destruct (Hb _ _ _ _ Eb) as [Hsuf Hfuel].
  destruct o1 as [a|e'| |]; try (intros [= <- <- <-]; done); [].
  case_decide; [| intros [= <- <- <-]; done].
  destruct (handler ins1) as [[o2 ins2] tr2] eqn:Eh.
  destruct (Hh _ _ _ _ Eh) as [Hsuf2 Hfuel2].
  intros [= <- <- <-]. split; [by etrans | done].
Qed.

Lemma quiet_ret (a : A) : quiet (mret a).
Proof. by intros ins e ins' tr. Qed.

Lemma quiet_emit (a : action) : quiet (emit a).
Proof. by intros ins e ins' tr. Qed.

Lemma quiet_input (prompt : string) : quiet (input prompt).
Proof. by intros [|line ins] e ins' tr. Qed.

Lemma quiet_bind (m : io A) (f : A → io B) :
  quiet m → (∀ a, quiet (f a)) → quiet (m ≫= f).
Proof.
  intros Hm Hf ins e ins' tr. unfold mbind, io_bind, bind.
  destruct (m ins) as [[o1 ins1] tr1] eqn:Em.
  destruct o1 as [a|e1| |]; try done.
  - destruct (f a ins1) as [[o2 ins2] tr2] eqn:Ef.
    intros [= -> <- <-]. by apply Hf in Ef.
  - by apply Hm in Em.
Qed.
End Tame.

Lemma tame_int (line : string) : tame (int line).
Proof. unfold int. destruct (py_int line); [apply tame_ret | apply tame_raise]. Qed.

Lemma tame_for_in {A : Type} (xs : list A) (body : A → io unit) :
  (∀ x, tame (body x)) → tame (for_in xs body).
Proof.
  intros Hb. induction xs as [|x xs IH]; [apply tame_ret |].
  apply (tame_bind (body x)); [done | by intros []].
Qed.

Lemma quiet_for_in {A : Type} (xs : list A) (body : A → io unit) :
  (∀ x, quiet (body x)) → quiet (for_in xs body).
Proof.
  intros Hb. induction xs as [|x xs IH]; [apply quiet_ret |].
  apply (quiet_bind (body x)); [done | by intros []].
Qed.

(** Proves [tame] and [quiet] goals by following the shape of the code. *)
Ltac follow_code :=
  repeat first
    [ progress intros
    | case_decide
    | apply tame_bind | apply tame_ret | apply tame_emit | apply tame_input
    | apply tame_int | apply tame_try_except | apply tame_for_in
    | apply quiet_bind | apply quiet_ret | apply quiet_emit | apply quiet_input
    | apply quiet_for_in ].

(** ** Menu loops: print the menu, read a choice, dispatch, again *)

Section Menu.
Context (menu_text : io unit) (header : list action) (prompt : string).
Context (dispatch : string → io flow) (is_exit : string → Prop).
Hypothesis text_prints : ∀ ins, menu_text ins = (Returned tt, ins, header).
Hypothesis dispatch_tame : ∀ c, tame (dispatch c).
Hypothesis dispatch_break :
  ∀ c ins ins' tr, dispatch c ins = (Returned Break, ins', tr) → is_exit c.

Let body : io flow := menu_text;; c ← input prompt; dispatch c.

Lemma round_blocked : body [] = (Blocked, [], header ++ [Prompt prompt]).
Proof. unfold body, mbind, io_bind, bind. by rewrite text_prints. Qed.

Lemma round_dispatch (c : string) (rest : list string) :
  body (c :: rest) =
    let '(o, ins', tr) := dispatch c rest in (o, ins', header ++ Prompt prompt :: tr).
Proof.
  unfold body, mbind, io_bind, bind. rewrite text_prints. simpl.
  by destruct (dispatch c rest) as [[[fl|e| |] ins1] tr1].
Qed.

(** The loop stops by [break] only on an exit choice, and the rounds the
    embedding allows are enough. *)
Lemma rounds_exit (fuel : nat) :
  ∀ ins o ins' tr, (length ins < fuel)%nat →
    while_true fuel body ins = (o, ins', tr) →
    o ≠ OutOfFuel ∧ (o = Returned tt → ∃ c, c ∈ ins ∧ is_exit c).
Proof.
  induction fuel as [|fuel IH]; intros ins o ins' tr Hfuel; [lia |].
  simpl. unfold bind. destruct ins as [|c rest].
  { rewrite round_blocked. by intros [= <- <- <-]. }
  rewrite round_dispatch.
  destruct (dispatch c rest) as [[o1 ins1] tr1] eqn:Ed.
  destruct (dispatch_tame _ _ _ _ _ Ed) as [Hsuf Hnf].
  destruct o1 as [[]|e| |]; try (by intros [= <- <- <-]).
  - destruct (while_true fuel body ins1) as [[o2 ins2] tr2] eqn:Ew.
    intros [= <- <- <-].
    assert (length ins1 < fuel)%nat as Hlt.
    { apply suffix_length in Hsuf. simpl in Hfuel. lia. }
    destruct (IH _ _ _ _ Hlt Ew) as [Hnf2 Hexit].
    split; [done |]. intros Ho. destruct (Hexit Ho) as (c' & Hin & Hc').
    exists c'. split; [| done]. apply list_elem_of_further.
    destruct Hsuf as [k ->]. apply elem_of_app. by right.
  - intros [= <- <- <-]. split; [done |]. intros _.
    exists c. split; [apply list_elem_of_here | by eapply dispatch_break].
Qed.

Lemma run_menu_exit (ins : list string) o ins' tr :
  run_menu body ins = (o, ins', tr) →
  o ≠ OutOfFuel ∧ (o = Returned tt → ∃ c, c ∈ ins ∧ is_exit c).
Proof.
  intros Hrun. by apply (rounds_exit (S (length ins)) ins o ins' tr); [lia |].
Qed.

(** A menu whose functions raise nothing raises nothing. *)
Lemma rounds_quiet (fuel : nat) :
  (∀ c, quiet (dispatch c)) → quiet (while_true fuel body).
Proof.
  intros Hq. induction fuel as [|fuel IH]; [done |].
  simpl. apply (quiet_bind body).
  - intros [|c rest] e ins' tr.
    + by rewrite round_blocked.
    + rewrite round_dispatch.
      destruct (dispatch c rest) as [[o1 ins1] tr1] eqn:Ed.
      intros [= -> <- <-]. by apply Hq in Ed.
  - intros []; [done | apply quiet_ret].
Qed.
End Menu.

Lemma then_continue_no_break {A : Type} (m : io A) ins ins' tr :
  (m ≫= λ _, mret Continue) ins ≠ (Returned Break, ins', tr).
Proof.
  unfold mbind, io_bind, bind. by destruct (m ins) as [[[a|e| |] ins1] tr1].
Qed.

(** *** src/shree.py *)

Lemma shree_dispatch_tame (c : string) : tame (Shree.menu_dispatch c).
Proof. unfold Shree.menu_dispatch, Shree.chart_menu, print, call. follow_code. Qed.

Lemma shree_dispatch_quiet (c : string) : quiet (Shree.menu_dispatch c).
Proof. unfold Shree.menu_dispatch, Shree.chart_menu, print, call. follow_code. Qed.

Lemma shree_dispatch_break (c : string) ins ins' tr :
  Shree.menu_dispatch c ins = (Returned Break, ins', tr) → c = "3".
Proof.
  unfold Shree.menu_dispatch. repeat case_decide; try done.
  all: intros Hrun; by apply then_continue_no_break in Hrun.
Qed.

(** The menu of src/shree.py raises nothing, and it returns only after the
    line [3] was typed. *)
Lemma shree_menu_ends (ins : list string) o ins' tr :
  Shree.menu ins = (o, ins', tr) →
  o ≠ OutOfFuel ∧ (∀ e, o ≠ Raised e) ∧ (o = Returned tt → "3" ∈ ins).
Proof.
  intros Hrun.
  destruct (run_menu_exit Shree.menu_text
              [Print (nl +:+ "1. Run Sorting Analysis");
               Print "2. Show Comparison Charts"; Print "3. Exit"]
              "Enter your choice: " Shree.menu_dispatch (λ c, c = "3")
              (λ _, eq_refl) shree_dispatch_tame shree_dispatch_break
              ins o ins' tr Hrun) as [Hfuel Hexit].
  split; [done |]. split; [| by intros (c & Hin & ->)%Hexit].
  intros e ->.
  by apply (rounds_quiet Shree.menu_text _ "Enter your choice: " Shree.menu_dispatch
              (λ _, eq_refl) _ shree_dispatch_quiet) in Hrun.
Qed.

(** Each recognised choice goes to its function and the menu comes again;
    any other line is answered with the invalid-choice message. *)
Lemma shree_dispatch_1 (ins : list string) :
  Shree.menu_dispatch "1" ins = (Returned Continue, ins, [Call "run_analysis" []]).
Proof. reflexivity. Qed.

Lemma shree_dispatch_2 (ins : list string) :
  Shree.menu_dispatch "2" ins = (Shree.chart_menu;; mret Continue) ins.
Proof. reflexivity. Qed.

Lemma shree_dispatch_other (c : string) (ins : list string) :
  c ≠ "1" → c ≠ "2" → c ≠ "3" →
  Shree.menu_dispatch c ins =
    (Returned Continue, ins, [Print "Invalid choice. Please try again."]).
Proof. intros. unfold Shree.menu_dispatch. by repeat case_decide. Qed.

(** *** src/analyiz.py *)

Lemma analyiz_dispatch_tame (data : frame) (c : string) :
  tame (Analyiz.menu_dispatch data c).
Proof.
  unfold Analyiz.menu_dispatch, Analyiz.display_data, print, call. follow_code.
Qed.

Lemma analyiz_dispatch_break (data : frame) (c : string) ins ins' tr :
  Analyiz.menu_dispatch data c ins = (Returned Break, ins', tr) → c = "5".
Proof.
  unfold Analyiz.menu_dispatch. repeat case_decide; try done.
  - intros Hrun. by apply then_continue_no_break in Hrun.
  - unfold mbind, io_bind, bind, print, emit, input. destruct ins as [|l ins]; [done |].
    repeat case_decide; done.
  - unfold mbind, io_bind, bind, print, emit, input.
    destruct ins as [|l1 [|l2 ins]]; done.
Qed.

(** The menu of src/analyiz.py returns only after the line [5] was typed. *)
Lemma analyiz_menu_returns (data : frame) (ins : list string) o ins' tr :
  Analyiz.menu_loop data ins = (o, ins', tr) →
  o ≠ OutOfFuel ∧ (o = Returned tt → "5" ∈ ins).
Proof.
  intros Hrun.
  destruct (run_menu_exit Analyiz.menu_text
              [Print (nl +:+ "Main Menu:"); Print "1. Display data";
               Print "2. Choose algorithm"; Print "3. Compare two algorithms";
               Print "4. Compare all algorithms"; Print "5. Exit"]
              "Enter your choice: " (Analyiz.menu_dispatch data) (λ c, c = "5")
              (λ _, eq_refl) (analyiz_dispatch_tame data) (analyiz_dispatch_break data)
              ins o ins' tr Hrun) as [Hfuel Hexit].
  split; [done |]. by intros (c & Hin & ->)%Hexit.
Qed.

Lemma analyiz_dispatch_other (data : frame) (c : string) (ins : list string) :
  c ≠ "1" → c ≠ "2" → c ≠ "3" → c ≠ "4" → c ≠ "5" →
  Analyiz.menu_dispatch data c ins = (Returned Continue, ins, [Print "Invalid choice."]).
Proof. intros. unfold Analyiz.menu_dispatch. by repeat case_decide. Qed.

(** *** src/ml_procedural.py *)

(** The handler of [display_data]: a line that is no number is answered and
    the caller goes on. *)
Lemma ml_display_data_guarded (data : frame) (line : string) (ins : list string) :
  ascii_line line → py_int line = None →
  MlProcedural.display_data data (line :: ins) =
    (Returned tt, ins,
     [Prompt "How many rows would you like to print? (up to 200): ";
      Print "Please enter a valid number."]).
Proof.
  intros _ Hline. unfold MlProcedural.display_data, try_except, mbind, io_bind, bind, int.
  simpl. by rewrite Hline.
Qed.

Lemma ml_dispatch_tame (data : frame) (line : string) :
  tame (choice ← int line; MlProcedural.menu_dispatch data choice).
Proof.
  unfold MlProcedural.menu_dispatch, MlProcedural.display_data,
    MlProcedural.compare_two_algorithms, MlProcedural.compare_all_algorithms,
    print, call.
  follow_code.
Qed.

Lemma ml_dispatch_break (data : frame) (line : string) ins ins' tr :
  (choice ← int line; MlProcedural.menu_dispatch data choice) ins
    = (Returned Break, ins', tr) →
  py_int line = Some 5.
Proof.
  unfold int. destruct (py_int line) as [choice|]; [| done].
  cbv beta iota delta [mbind io_bind bind ret].
  destruct (MlProcedural.menu_dispatch data choice ins) as [[o2 ins2] tr2] eqn:Ed.
  intros [= -> <- <-]. revert Ed.
  unfold MlProcedural.menu_dispatch. repeat case_decide; try congruence.
  - intros Hrun. by apply then_continue_no_break in Hrun.
  - unfold mbind, io_bind, bind, print, emit, input, int.
    destruct ins as [|l ins]; [done |]. simpl.
    destruct (py_int l); [| done]. simpl. repeat case_decide; done.
  - intros Hrun. by apply then_continue_no_break in Hrun.
  - intros Hrun. by apply then_continue_no_break in Hrun.
  - done.
Qed.

(** The menu of src/ml_procedural.py returns only after a line that reads
    as the number 5 was typed. *)
Lemma ml_menu_returns (data : frame) (ins : list string) o ins' tr :
  MlProcedural.menu_loop data ins = (o, ins', tr) →
  o ≠ OutOfFuel ∧ (o = Returned tt → ∃ line, line ∈ ins ∧ py_int line = Some 5).
Proof.
  apply (run_menu_exit MlProcedural.menu_text
           [Print (nl +:+ "Main Menu:"); Print "1. Display data";
            Print "2. Choose algorithm"; Print "3. Compare two algorithms";
            Print "4. Compare all algorithms"; Print "5. Exit"]
           "Enter your choice: "
           (λ line, choice ← int line; MlProcedural.menu_dispatch data choice)
           (λ line, py_int line = Some 5)
           (λ _, eq_refl) (ml_dispatch_tame data) (ml_dispatch_break data)).
Qed.

(** ** The claims on error handling and on the menus *)

(** C2: not every numeric parse of console input is guarded.  The line
    [abc] typed at the menu of src/ml_procedural.py, at its algorithm prompt,
    or at the row prompt of [display_data] in src/analyiz.py and src/4.py
    ends the script with an uncaught [ValueError]. *)
Theorem C2_unguarded_numeric_parse (data : frame) (ins : list string) :
  py_int "abc" = None ∧
  (∃ tr, MlProcedural.menu_loop data ("abc" :: ins) = (Raised ValueError, ins, tr)) ∧
  (∃ tr, MlProcedural.menu_loop data ("2" :: "abc" :: ins) = (Raised ValueError, ins, tr)) ∧
  (∃ tr, Analyiz.display_data data ("abc" :: ins) = (Raised ValueError, ins, tr)) ∧
  (∃ tr, Py4.display_data data ("abc" :: ins) = (Raised ValueError, ins, tr)).
Proof. repeat split; eexists; reflexivity. Qed.

(** C8: the menu loop of src/analyiz.py can end without the exit choice:
    after [1], the line [abc] at the row prompt of [display_data] raises a
    [ValueError] that nothing catches. *)
Theorem C8_analyiz_menu_aborts (data : frame) (ins : list string) :
  ∃ tr, Analyiz.menu_loop data ("1" :: "abc" :: ins) = (Raised ValueError, ins, tr).
Proof. eexists. reflexivity. Qed.

(** C6: [load_data] of src/analyiz.py and of src/ml_procedural.py returns
    the frame when the file can be read; it returns [None], after printing
    the error message, exactly when the read raises [FileNotFoundError]; any
    other exception of the read leaves [load_data] uncaught. *)
Theorem C6_load_data_catches_only_FileNotFoundError
    (fs : filesystem) (file_path : string) (ins : list string) :
  loads_or_reports fs file_path [] ins (Analyiz.load_data fs file_path ins) ∧
  loads_or_reports fs (ml_file_path fs) (ml_notice fs) ins (MlProcedural.load_data fs ins).
Proof.
  split.
  - unfold loads_or_reports, Analyiz.load_data, try_except, mbind, io_bind, bind,
      pd_read_csv.
    destruct (read_csv fs file_path) as [data|[]]; simpl;
      repeat split; intros; simplify_eq/=; done.
  - unfold loads_or_reports, MlProcedural.load_data, ml_file_path, ml_notice,
      try_except, mbind, io_bind, bind, pd_read_csv.
    destruct (path_exists fs _); simpl.
    all: match goal with |- context [read_csv _ ?p] =>
           destruct (read_csv fs p) as [data|[]] end; simpl.
    all: repeat split; intros; simplify_eq/=; done.
Qed.

Lemma C6_load_data_catches_only_FileNotFoundError_witness :
  read_csv demo_fs "gone.csv" = inr FileNotFoundError ∧
  Analyiz.load_data demo_fs "gone.csv" [] =
    (Returned None, [], [Print "Error: The file 'gone.csv' does not exist."]).
Proof.
  split; [reflexivity |].
  destruct (C6_load_data_catches_only_FileNotFoundError demo_fs "gone.csv" [])
    as [(_ & Hmissing & _) _].
  apply Hmissing. reflexivity.
Defined.

(** Each of the three ways out of [load_data], on [demo_fs]. *)
Example load_data_three_ways :
  (Analyiz.load_data demo_fs "a.csv" []).1.1 = Returned (Some [["1"; "2"]]) ∧
  (Analyiz.load_data demo_fs "gone.csv" []).1.1 = Returned None ∧
  (Analyiz.load_data demo_fs "locked.csv" []).1.1 = Raised PermissionError ∧
  (MlProcedural.load_data demo_fs []).1.1 = Returned (Some [["1"; "2"]]).
Proof. repeat split. Qed.

(** ** The key logger *)

Import GameKeyLogger.

Lemma on_release_False (k : key) (st : log) :
  (on_release k st).2 = Some false ↔ k = esc.
Proof. unfold on_release. by case_decide. Qed.

Lemma listener_running (events : list event) :
  ∀ st, Release esc ∉ events →
    listener events st =
      ({| stdout := stdout st ++ pressed events;
          key_log := key_log st ++ ((λ line, line +:+ nl) <$> pressed events) |}, true).
Proof.
  induction events as [|[k now|k] events IH]; intros [out file] Hno; simpl.
  - by rewrite !app_nil_r.
  - apply not_elem_of_cons in Hno as [_ Hno]. rewrite IH by done. simpl.
    by rewrite <- !app_assoc.
  - apply not_elem_of_cons in Hno as [Hk Hno].
    unfold on_release. rewrite decide_False by congruence. simpl.
    by rewrite IH.
Qed.

Lemma listener_stopped (before after : list event) (st : log) :
  Release esc ∉ before →
  listener (before ++ Release esc :: after) st =
    ({| stdout := stdout st ++ pressed before ++ [nl +:+ "[Logger Stopped]"];
        key_log := key_log st ++ ((λ line, line +:+ nl) <$> pressed before) |}, false).
Proof.
  revert st. induction before as [|[k now|k] before IH]; intros [out file] Hno; simpl.
  - by rewrite !app_nil_r.
  - apply not_elem_of_cons in Hno as [_ Hno]. rewrite IH by done. simpl.
    by rewrite <- !app_assoc.
  - apply not_elem_of_cons in Hno as [Hk Hno].
    unfold on_release at 1. rewrite decide_False by congruence. simpl.
    by rewrite IH.
Qed.

(** C7: [on_release] returns [False] exactly for [keyboard.Key.esc] and
    [on_press] never does; so the listener has stopped exactly when an escape
    release is among the events, every press before it is logged, and
    nothing after it is. *)
Theorem C7_listener_stops_on_esc_release :
  (∀ k st, (on_release k st).2 = Some false ↔ k = esc) ∧
  (∀ k now st, (on_press k now st).2 = None) ∧
  (∀ events st, (listener events st).2 = false ↔ Release esc ∈ events) ∧
  (∀ events st, Release esc ∉ events →
     (listener events st).2 = true ∧
     key_log (listener events st).1 =
       key_log st ++ ((λ line, line +:+ nl) <$> pressed events)) ∧
  (∀ before after st, Release esc ∉ before →
     listener (before ++ Release esc :: after) st =
       listener (before ++ [Release esc]) st).
Proof.
  split; [apply on_release_False |]. split; [done |]. split; [| split].
  - intros events st. split.
    + intros Hstop. destruct (decide (Release esc ∈ events)) as [|Hno]; [done |].
      rewrite (listener_running events st Hno) in Hstop. done.
    + intros Hin. apply list_elem_of_split_l in Hin as (before & after & -> & Hno).
      by rewrite listener_stopped.
  - intros events st Hno. by rewrite listener_running.
  - intros before after st Hno. by rewrite !listener_stopped.
Qed.

Lemma C7_listener_stops_on_esc_release_witness :
  let events := [Press (KeyCode (Some "w")) "2024-05-01 10:00:00";
                 Release (KeyCode (Some "w"));
                 Press esc "2024-05-01 10:00:01"] in
  (Release esc ∉ events) ∧
  ((listener events {| stdout := []; key_log := [] |}).2 = true).
Proof.
  intros events.
  assert (Release esc ∉ events) as Hno.
  { intros Hin. repeat (apply elem_of_cons in Hin as [Hin|Hin]; [discriminate |]).
    by apply elem_of_nil in Hin. }
  split; [exact Hno |].
  destruct C7_listener_stops_on_esc_release as (_ & _ & _ & Hrun & _).
  apply (Hrun events {| stdout := []; key_log := [] |} Hno).
Defined.

(** ** The row prompt of src/ml_procedural.py *)

(** A line from which [py_int] reads a number is a line of ASCII
    characters: white space, a sign, digits and underscores. *)
Lemma is_ascii_rev_app (s1 s2 : string) :
  is_ascii (String.rev_app s1 s2) = is_ascii s1 && is_ascii s2.
Proof.
  revert s2. induction s1 as [|c s1 IH]; intros s2; simpl; [done |].
  rewrite IH. simpl. by destruct (_ <? _)%nat, (is_ascii s1), (is_ascii s2).
Qed.

Lemma is_ascii_rev (s : string) : is_ascii (String.rev s) = is_ascii s.
Proof. unfold String.rev. rewrite is_ascii_rev_app. simpl. apply andb_true_r. Qed.

Lemma is_space_ascii (c : ascii) : is_space c = true → (nat_of_ascii c <? 128)%nat = true.
Proof.
  unfold is_space. intros H. apply Nat.ltb_lt.
  apply orb_true_iff in H as [[_ H]%andb_true_iff | H].
  - apply Nat.leb_le in H. lia.
  - apply Nat.eqb_eq in H. lia.
Qed.

Lemma is_ascii_lstrip (s : string) : is_ascii (lstrip s) = true → is_ascii s = true.
Proof.
  induction s as [|c s IH]; simpl; [done |].
  destruct (is_space c) eqn:Hc; [| done].
  intros H. by rewrite (is_space_ascii _ Hc), IH.
Qed.

Lemma is_ascii_strip (s : string) : is_ascii (strip s) = true → is_ascii s = true.
Proof.
  unfold strip. rewrite is_ascii_rev. intros H%is_ascii_lstrip.
  rewrite is_ascii_rev in H. by apply is_ascii_lstrip.
Qed.

Lemma digits_ascii (s : string) :
  ∀ acc after n, digits s acc after = Some n → is_ascii s = true.
Proof.
  induction s as [|c s IH]; intros acc after n; simpl; [done |].
  destruct (is_digit c) eqn:Hd.
  - intros H%IH. rewrite H, andb_true_r. apply Nat.ltb_lt.
    unfold is_digit in Hd. apply andb_true_iff in Hd as [_ Hd].
    apply Nat.leb_le in Hd. lia.
  - destruct (Ascii.eqb c "_" && after) eqn:Hu; [| done].
    intros H%IH. rewrite H, andb_true_r.
    apply andb_true_iff in Hu as [Hu%Ascii.eqb_eq _]. by subst c.
Qed.

Lemma py_int_Some_ascii (line : string) (n : Z) : py_int line = Some n → ascii_line line.
Proof.
  unfold py_int, ascii_line. intros H. apply is_ascii_strip.
  destruct (strip line) as [|c s]; [done |].
  assert (∀ m, digits s 0 false = Some m →
               (nat_of_ascii c <? 128)%nat = true → is_ascii (String c s) = true)
    as Hsign.
  { intros m Hm Hc. simpl. by rewrite Hc, (digits_ascii _ _ _ _ Hm). }
  destruct (decide (c = "+"%char)) as [->|Hplus].
  { by eapply Hsign. }
  destruct (decide (c = "-"%char)) as [->|Hminus].
  { destruct (digits s 0 false) as [m|] eqn:Hm; [| done]. by eapply Hsign. }
  assert (digits (String c s) 0 false = Some n) as Hd.
  { revert H. clear -Hplus Hminus.
    destruct c as [[] [] [] [] [] [] [] []]; done. }
  by eapply digits_ascii.
Qed.

(** The separators 28 to 31 are white space to [str.strip] but not to
    [int] on a line of ASCII characters. *)
Lemma py_int_separators_are_no_space :
  Forall (λ n, py_int (String (ascii_of_nat n) "5") = None) [28; 29; 30; 31]%nat.
Proof. repeat constructor. Qed.

(** C9, as amended: for every line that parses to a number [n >= 0] (a
    line of ASCII characters, by [py_int_Some_ascii]), [display_data] prints
    the first [min(n, 200)] rows of the frame, that is
    [min(n, 200, len(data))] rows and so at most 200. *)
Theorem C9_display_data_clamps (data : frame) (line : string) (n : Z)
    (ins : list string) :
  py_int line = Some n → 0 ≤ n →
  MlProcedural.display_data data (line :: ins) =
    (Returned tt, ins,
     [Prompt "How many rows would you like to print? (up to 200): ";
      PrintFrame (take (Z.to_nat (Z.min n 200)) data)]) ∧
  length (take (Z.to_nat (Z.min n 200)) data)
    = (Z.to_nat (Z.min n 200) `min` length data)%nat ∧
  (length (take (Z.to_nat (Z.min n 200)) data) ≤ 200)%nat.
Proof.
  intros Hline Hn. split; [| split].
  - unfold MlProcedural.display_data, try_except, mbind, io_bind, bind, int.
    simpl. rewrite Hline. simpl. unfold head.
    case_bool_decide.
    + rewrite decide_True by lia. by rewrite Z.min_r by lia.
    + rewrite decide_True by lia. by rewrite Z.min_l by lia.
  - apply length_take.
  - rewrite length_take. lia.
Qed.

Lemma C9_display_data_clamps_witness :
  py_int "250" = Some 250 ∧ 0 ≤ 250 ∧
  MlProcedural.display_data (replicate 300 []) ["250"] =
    (Returned tt, [],
     [Prompt "How many rows would you like to print? (up to 200): ";
      PrintFrame (take (Z.to_nat (Z.min 250 200)) (replicate 300 []))]).
Proof.
  split; [reflexivity |]. split; [lia |].
  apply (C9_display_data_clamps (replicate 300 []) "250" 250 []); [reflexivity | lia].
Defined.

(** C9 as stated fails twice: a frame of 3 rows and the line [10] print 3
    rows, not [min(10, 200)]; a frame of 300 rows and the line [-1] print
    299 rows, more than 200. *)
Lemma C9_counterexample :
  (py_int "10" = Some 10 ∧
   MlProcedural.display_data (replicate 3 []) ["10"] =
     (Returned tt, [],
      [Prompt "How many rows would you like to print? (up to 200): ";
       PrintFrame (replicate 3 [])]) ∧
   Z.of_nat (length (replicate 3 ([] : row))) ≠ Z.min 10 200) ∧
  (py_int "-1" = Some (-1) ∧
   MlProcedural.display_data (replicate 300 []) ["-1"] =
     (Returned tt, [],
      [Prompt "How many rows would you like to print? (up to 200): ";
       PrintFrame (replicate 299 [])]) ∧
   (200 < length (replicate 299 ([] : row)))%nat).
Proof.
  split; (split; [reflexivity |]); (split; [reflexivity |]).
  - rewrite length_replicate. lia.
  - rewrite length_replicate. lia.
Qed.

(** ** The sales bonus *)

Import SalesIncentive.

(** Comparisons of floats that are not NaN are decided by sign, exponent
    and mantissa, in this order. *)
Ltac order_cases :=
  repeat match goal with
  | |- context [(?a ?= ?b)%Z] => destruct (Z.compare_spec a b)
  | |- context [PosDef.Pos.compare_cont Eq ?a ?b] =>
      change (PosDef.Pos.compare_cont Eq a b) with (a ?= b)%positive;
      destruct (Pos.compare_spec a b)
  end.

Lemma SFleb_ltb_trans (a v b : spec_float) :
  SFleb a v = true → SFltb v b = true → SFltb a b = true.
Proof.
  unfold SFleb, SFltb.
  destruct a as [sa|sa| |sa ma ea], v as [sv|sv| |sv mv ev], b as [sb|sb| |sb mb eb];
    simpl; try done;
    repeat match goal with s : bool |- _ => destruct s end; simpl; try done.
  all: order_cases; simpl; try done; try lia.
Qed.

Lemma SFltb_leb_trans (a v b : spec_float) :
  SFltb a v = true → SFleb v b = true → SFltb a b = true.
Proof.
  unfold SFleb, SFltb.
  destruct a as [sa|sa| |sa ma ea], v as [sv|sv| |sv mv ev], b as [sb|sb| |sb mb eb];
    simpl; try done;
    repeat match goal with s : bool |- _ => destruct s end; simpl; try done.
  all: order_cases; simpl; try done; try lia.
Qed.

Lemma SFleb_not_ltb (x y : spec_float) : SFleb x y = true → SFltb y x = false.
Proof.
  unfold SFleb, SFltb.
  destruct x as [sx|sx| |sx mx ex], y as [sy|sy| |sy my ey];
    simpl; try done;
    repeat match goal with s : bool |- _ => destruct s end; simpl; try done.
  all: order_cases; simpl; try done; try lia.
Qed.

(** The loop with its [break] picks the first slab that contains the
    value, and keeps the initial [matched_bonus] when there is none. *)
Lemma match_slabs_find (slabs : list slab) (sales : spec_float) (initial : Z) :
  match_slabs slabs sales initial =
    match List.find (in_slab sales) slabs with
    | Some s => slab_bonus s
    | None => initial
    end.
Proof.
  induction slabs as [|s slabs IH]; simpl; [done |].
  by destruct (in_slab sales s).
Qed.

Lemma above_999 (v b : spec_float) :
  SFleb (float_of_int 999) v = true →
  SFltb (float_of_int 999) b = false → SFltb v b = false.
Proof.
  intros Hv Hb. destruct (SFltb v b) eqn:Hvb; [| done].
  by rewrite (SFleb_ltb_trans _ _ _ Hv Hvb) in Hb.
Qed.

(** No slab holds a value of 999 lakh or more. *)
Lemma no_slab_from_999 (v : spec_float) :
  SFleb (float_of_int 999) v = true → List.find (in_slab v) bonus_slabs = None.
Proof.
  intros Hv. unfold bonus_slabs, List.find, in_slab; cbn [slab_min slab_max].
  rewrite !(above_999 v _ Hv) by reflexivity.
  by rewrite !andb_false_r.
Qed.

(** C10: the bonus rate is the rate of the first slab whose interval
    [[min, max)] holds the sales value in lakhs, where a raw input above
    1000 is first divided by 100000, and it is 0 when no slab holds the
    value, as for every value of 999 lakh or more; a raw input in
    [[999, 1000]] is taken as lakhs, lies above the minimum of the top
    slab, is held by no slab and gets the rate 0. *)
Theorem C10_bonus_rate_first_slab (raw_sales : spec_float) :
  sales_lakh raw_sales =
    (if SFltb (float_of_int 1000) raw_sales
     then SFdiv prec emax raw_sales (float_of_int 100000) else raw_sales) ∧
  matched_bonus raw_sales =
    match List.find (λ s, SFleb (slab_min s) (sales_lakh raw_sales)
                          && SFltb (sales_lakh raw_sales) (slab_max s)) bonus_slabs with
    | Some s => slab_bonus s
    | None => 0
    end ∧
  (SFleb (float_of_int 999) (sales_lakh raw_sales) = true →
   matched_bonus raw_sales = 0) ∧
  (SFleb (float_of_int 999) raw_sales = true →
   SFleb raw_sales (float_of_int 1000) = true →
   sales_lakh raw_sales = raw_sales ∧
   SFltb (float_of_int 15) raw_sales = true ∧
   List.find (in_slab (sales_lakh raw_sales)) bonus_slabs = None ∧
   matched_bonus raw_sales = 0).
Proof.
  split; [reflexivity |]. split; [apply match_slabs_find |]. split.
  { intros Hlo. unfold matched_bonus. by rewrite match_slabs_find, no_slab_from_999. }
  intros Hlo Hhi.
  assert (sales_lakh raw_sales = raw_sales) as Hlakh.
  { unfold sales_lakh. by rewrite (SFleb_not_ltb _ _ Hhi). }
  split; [done |]. split.
  { by apply (SFltb_leb_trans _ (float_of_int 999)). }
  unfold matched_bonus. rewrite match_slabs_find, Hlakh, no_slab_from_999; done.
Qed.

Lemma C10_bonus_rate_first_slab_witness :
  let raw_sales := binary_normalize prec emax 1999 (-1) false in
  SFleb (float_of_int 999) raw_sales = true ∧
  SFleb raw_sales (float_of_int 1000) = true ∧
  matched_bonus raw_sales = 0.
Proof.
  split; [reflexivity |]. split; [reflexivity |].
  apply (C10_bonus_rate_first_slab (binary_normalize prec emax 1999 (-1) false));
    reflexivity.
Defined.

(** * Further properties of the code *)

(** ** The three sorts of src/nd.py against each other *)

(** X1: on every list the three sorts of src/nd.py end with the same list. *)
Theorem X1_nd_sorts_agree (arr : list Z) :
  ∃ res, Nd.bubble_sort arr = Some res ∧ Nd.merge_sort arr = Some res ∧
         Nd.quick_sort arr = Some res.
Proof.
  destruct (bubble_sort_inv arr) as (b & Hb & Hbp & Hbs).
  destruct (merge_sort_spec (S (length arr)) arr) as (m & Hm & Hmp & Hms); [lia |].
  destruct (quick_sort_spec (S (length arr)) arr) as (q & Hq & Hqp & Hqs); [lia |].
  apply StronglySorted_Sorted in Hqs.
  assert (m = b) as -> by (apply (Sorted_unique Z.le); [done | done | by rewrite Hmp]).
  assert (q = b) as -> by (apply (Sorted_unique Z.le); [done | done | by rewrite Hqp]).
  by exists b.
Qed.

(** X2: the sorted lists are the fixed points of the three sorts of
    src/nd.py.  [bubble_sort] and [merge_sort], which store into their
    argument, leave it with the contents it had exactly when these were in
    non-decreasing order already; [quick_sort] never stores into its
    argument, and the list it returns is equal to its argument exactly when
    the argument is in non-decreasing order. *)
Theorem X2_nd_sorts_fixed_points (arr : list Z) :
  (Nd.bubble_sort arr = Some arr ↔ Sorted Z.le arr) ∧
  (Nd.merge_sort arr = Some arr ↔ Sorted Z.le arr) ∧
  (Nd.quick_sort arr = Some arr ↔ Sorted Z.le arr).
Proof.
  destruct (bubble_sort_inv arr) as (b & Hb & Hbp & Hbs).
  destruct (merge_sort_spec (S (length arr)) arr) as (m & Hm & Hmp & Hms); [lia |].
  destruct (quick_sort_spec (S (length arr)) arr) as (q & Hq & Hqp & Hqs); [lia |].
  apply StronglySorted_Sorted in Hqs.
  rewrite Hb, Hm, Hq. repeat split.
  all: try (intros [= <-]; done).
  all: intros Hs; f_equal; by apply (Sorted_unique Z.le).
Qed.

(** ** What [bubble_sort] of src/shree.py computes *)

(** Line 13 stores the old [arr[j]] in both cells: the right cell gets the
    larger of the two values and the left cell keeps its own. *)
Lemma shree_bubble_step_eq (arr : list Z) (j : nat) (a b : Z) :
  arr !! j = Some a → arr !! (j + 1)%nat = Some b →
  Shree.bubble_step j arr = Some (<[(j + 1)%nat:=Z.max a b]> arr).
Proof.
  intros Ha Hb. unfold Shree.bubble_step, getitem. rewrite Ha, Hb. simpl.
  case_bool_decide.
  - simpl. rewrite setitem_Some by (by eapply lookup_lt_Some). simpl.
    rewrite setitem_Some by (rewrite length_insert; by eapply lookup_lt_Some).
    by rewrite (list_insert_id _ _ _ Ha), Z.max_l by lia.
  - by rewrite Z.max_r, (list_insert_id _ _ _ Hb) by lia.
Qed.

(** [k] steps from index [length pre] on carry the running maximum over the
    next [k] cells. *)
Lemma shree_sweep (k : nat) :
  ∀ (pre : list Z) (x : Z) (rest : list Z), (k ≤ length rest)%nat →
    for_each Shree.bubble_step (seq (length pre) k) (pre ++ x :: rest) =
      Some (pre ++ x :: running_max_from x (take k rest) ++ drop k rest).
Proof.
  induction k as [|k IH]; intros pre x rest Hk; [done |].
  destruct rest as [|y rest]; [simpl in Hk; lia |]. simpl in Hk.
  cbn [seq for_each].
  rewrite (shree_bubble_step_eq _ _ x y).
  - simpl.
    replace (<[(length pre + 1)%nat:=Z.max x y]> (pre ++ x :: y :: rest))
      with ((pre ++ [x]) ++ Z.max x y :: rest).
    + replace (S (length pre)) with (length (pre ++ [x]))
        by (rewrite length_app; simpl; lia).
      rewrite IH by lia. by rewrite <- app_assoc.
    + rewrite insert_app_r_alt by lia.
      replace (length pre + 1 - length pre)%nat with 1%nat by lia.
      by rewrite <- app_assoc.
  - by rewrite lookup_app_r, Nat.sub_diag by lia.
  - rewrite lookup_app_r by lia.
    by replace (length pre + 1 - length pre)%nat with 1%nat by lia.
Qed.

Lemma running_max_from_Sorted (x : Z) (l : list Z) :
  Sorted Z.le (x :: l) → running_max_from x l = l.
Proof.
  revert x. induction l as [|y l IH]; intros x Hs; [done |].
  apply Sorted_inv in Hs as [Hs Hxy]. apply HdRel_inv in Hxy.
  simpl. rewrite Z.max_r by done. by rewrite IH.
Qed.

Lemma running_max_from_ge (x : Z) (l : list Z) :
  Sorted Z.le (x :: running_max_from x l).
Proof.
  revert x. induction l as [|y l IH]; intros x; simpl.
  - repeat constructor.
  - constructor; [apply IH | constructor; lia].
Qed.

Lemma running_max_Sorted (l : list Z) : Sorted Z.le (running_max l).
Proof. destruct l as [|x l]; [constructor | apply running_max_from_ge]. Qed.

Lemma Sorted_take_cons (x : Z) (l : list Z) (k : nat) :
  Sorted Z.le (x :: l) → Sorted Z.le (x :: take k l).
Proof.
  intros Hs. apply (Sorted_StronglySorted Z.le) in Hs.
  apply StronglySorted_Sorted.
  change (x :: take k l) with (take (S k) (x :: l)).
  rewrite <- (take_drop (S k) (x :: l)) in Hs.
  by apply StronglySorted_app_1_l in Hs.
Qed.

(** A pass over a list in non-decreasing order changes nothing. *)
Lemma shree_pass_Sorted (arr : list Z) (n i : nat) :
  n = length arr → Sorted Z.le arr → Shree.bubble_pass n i arr = Some arr.
Proof.
  intros -> Hs. unfold Shree.bubble_pass, range. rewrite Nat.sub_0_r.
  destruct arr as [|x rest]; [done |].
  rewrite (shree_sweep _ [] x rest) by (simpl; lia). simpl.
  rewrite running_max_from_Sorted by (by apply Sorted_take_cons).
  by rewrite take_drop.
Qed.

Lemma for_each_fixed {S : Type} (body : nat → S → option S) (js : list nat) (s : S) :
  (∀ j, body j s = Some s) → for_each body js s = Some s.
Proof. intros Hb. induction js as [|j js IH]; [done |]. simpl. by rewrite Hb. Qed.

Lemma shree_bubble_sort_eq (arr : list Z) :
  Shree.bubble_sort arr = Some (running_max arr).
Proof.
  unfold Shree.bubble_sort, range. rewrite Nat.sub_0_r.
  destruct arr as [|x rest]; [done |].
  cbn [length seq for_each].
  assert (Shree.bubble_pass (S (length rest)) 0 (x :: rest)
          = Some (running_max (x :: rest))) as ->.
  { unfold Shree.bubble_pass, range. rewrite !Nat.sub_0_r.
    rewrite (shree_sweep _ [] x rest) by (simpl; lia). simpl.
    by rewrite Nat.sub_0_r, take_ge, drop_ge, app_nil_r by lia. }
  simpl. apply for_each_fixed. intros i.
  apply shree_pass_Sorted; [| apply running_max_from_ge].
  simpl. f_equal. clear. revert x. induction rest as [|y rest IH]; intros x; [done |].
  simpl. by rewrite <- IH.
Qed.

Lemma sumZ_Permutation (l1 l2 : list Z) : l1 ≡ₚ l2 → sumZ l1 = sumZ l2.
Proof. induction 1; simpl; lia. Qed.

Lemma running_max_from_sum (m : Z) (l : list Z) :
  sumZ l ≤ sumZ (running_max_from m l) ∧
  (sumZ (running_max_from m l) = sumZ l → running_max_from m l = l).
Proof.
  revert m. induction l as [|y l IH]; intros m; [done |]. simpl.
  destruct (IH (Z.max m y)) as [Hle Heq]. split; [lia |].
  intros Hsum. assert (Z.max m y = y) as Hy by lia.
  rewrite Hy in *. f_equal. apply Heq. lia.
Qed.

Lemma running_max_sum_eq (l : list Z) : sumZ (running_max l) = sumZ l → running_max l = l.
Proof.
  destruct l as [|x l]; [done |]. simpl. intros Hsum. f_equal.
  apply running_max_from_sum. lia.
Qed.

(** X3: [bubble_sort] of src/shree.py never raises and puts at every
    position the largest of the elements up to that position. *)
Theorem X3_shree_bubble_sort_running_max (arr : list Z) :
  ∃ res, Shree.bubble_sort arr = Some res ∧ length res = length arr ∧
    ∀ k x, res !! k = Some x →
      (∃ p, (p ≤ k)%nat ∧ arr !! p = Some x) ∧
      (∀ p y, (p ≤ k)%nat → arr !! p = Some y → y ≤ x).
Proof.
  exists (running_max arr). split; [apply shree_bubble_sort_eq |].
  destruct arr as [|a arr]; [done |]. simpl.
  assert (∀ (l : list Z) (m : Z) (k : nat) (x : Z),
            running_max_from m l !! k = Some x →
            m ≤ x ∧ (x = m ∨ ∃ p, (p ≤ k)%nat ∧ l !! p = Some x) ∧
            (∀ p y, (p ≤ k)%nat → l !! p = Some y → y ≤ x)) as Hfrom.
  { induction l as [|z l IH]; intros m k x Hk; [done |].
    destruct k as [|k]; simpl in Hk.
    - injection Hk as <-. split; [lia |]. split.
      + destruct (Z.max_spec m z) as [[_ ->]|[_ ->]]; [right; exists 0%nat | left]; eauto.
      + intros [|p] y Hp Hy; [| lia]. injection Hy as ->. lia.
    - destruct (IH _ _ _ Hk) as (Hge & Hfrom & Hall). split; [lia |]. split.
      + destruct Hfrom as [->|(p & Hp & Hx)].
        * destruct (Z.max_spec m z) as [[_ ->]|[_ ->]]; [right; exists 0%nat | left];
            eauto with lia.
        * right. exists (S p). split; [lia | done].
      + intros [|p] y Hp Hy.
        * injection Hy as ->. lia.
        * apply (Hall p); [lia | done]. }
  split.
  { f_equal. generalize a. induction arr as [|y arr IH]; intros m; [done |].
    simpl. by rewrite IH. }
  intros [|k] x Hk; simpl in Hk.
  - injection Hk as <-. split; [exists 0%nat; eauto |].
    intros [|p] y Hp Hy; [| lia]. injection Hy as ->. lia.
  - destruct (Hfrom _ _ _ _ Hk) as (Hge & Hx & Hall). split.
    + destruct Hx as [->|(p & Hp & Hx)]; [exists 0%nat; eauto with lia |].
      exists (S p). split; [lia | done].
    + intros [|p] y Hp Hy; [injection Hy as ->; lia |].
      apply (Hall p); [lia | done].
Qed.

(** X4: the result of [bubble_sort] of src/shree.py is in non-decreasing
    order, and it is the input exactly when the input was in non-decreasing
    order. *)
Theorem X4_shree_bubble_sort_sorted_not_permuted (arr : list Z) :
  ∃ res, Shree.bubble_sort arr = Some res ∧ Sorted Z.le res ∧
         (res = arr ↔ Sorted Z.le arr) ∧ (res ≡ₚ arr ↔ Sorted Z.le arr).
Proof.
  exists (running_max arr). split; [apply shree_bubble_sort_eq |].
  split; [apply running_max_Sorted |].
  assert (Sorted Z.le arr → running_max arr = arr) as Hfix.
  { destruct arr as [|x arr]; [done |]. intros Hs. simpl.
    by rewrite running_max_from_Sorted. }
  split; (split; [| by intros ->%Hfix]).
  - intros <-. apply running_max_Sorted.
  - intros Hperm. rewrite <- (running_max_sum_eq arr); [apply running_max_Sorted |].
    by apply sumZ_Permutation.
Qed.

(** ** Menu loops, round by round *)

Section MenuRounds.
Context (menu_text : io unit) (header : list action) (prompt : string).
Context (dispatch : string → io flow).
Hypothesis text_prints : ∀ ins, menu_text ins = (Returned tt, ins, header).
Hypothesis dispatch_tame : ∀ c, tame (dispatch c).

Let body : io flow := menu_text;; c ← input prompt; dispatch c.

Lemma menu_round_nil : body [] = (Blocked, [], header ++ [Prompt prompt]).
Proof. exact (round_blocked _ _ _ _ text_prints). Qed.

Lemma menu_round_cons (c : string) (rest : list string) :
  body (c :: rest) =
    let '(o, ins', tr) := dispatch c rest in (o, ins', header ++ Prompt prompt :: tr).
Proof. exact (round_dispatch _ _ _ _ text_prints c rest). Qed.

(** Any bound above the number of lines gives the same run. *)
Lemma rounds_bound_irrelevant (fuel1 : nat) :
  ∀ fuel2 ins, (length ins < fuel1)%nat → (length ins < fuel2)%nat →
    while_true fuel1 body ins = while_true fuel2 body ins.
Proof.
  induction fuel1 as [|fuel1 IH]; intros [|fuel2] ins H1 H2; try lia.
  simpl. unfold bind. destruct ins as [|c rest].
  { by rewrite menu_round_nil. }
  rewrite menu_round_cons.
  destruct (dispatch c rest) as [[o1 ins1] tr1] eqn:Ed.
  destruct (dispatch_tame _ _ _ _ _ Ed) as [Hsuf _]. apply suffix_length in Hsuf.
  destruct o1 as [[]|e| |]; try done.
  simpl in H1, H2. by rewrite (IH fuel2 ins1) by lia.
Qed.

(** With nothing typed the menu is shown once and the script waits. *)
Lemma run_menu_nil : run_menu body [] = (Blocked, [], header ++ [Prompt prompt]).
Proof. unfold run_menu. simpl. unfold bind. by rewrite menu_round_nil. Qed.

(** One round: the menu, the prompt, what the choice does, and then the
    loop again on the lines that are left, unless the choice broke out of the
    loop or did not come back. *)
Lemma run_menu_cons (c : string) (rest : list string) :
  run_menu body (c :: rest) =
    match dispatch c rest with
    | (Returned Continue, ins1, tr1) =>
        let '(o, ins2, tr2) := run_menu body ins1 in
        (o, ins2, (header ++ Prompt prompt :: tr1) ++ tr2)
    | (Returned Break, ins1, tr1) =>
        (Returned tt, ins1, (header ++ Prompt prompt :: tr1) ++ [])
    | (Raised e, ins1, tr1) => (Raised e, ins1, header ++ Prompt prompt :: tr1)
    | (Blocked, ins1, tr1) => (Blocked, ins1, header ++ Prompt prompt :: tr1)
    | (OutOfFuel, ins1, tr1) => (OutOfFuel, ins1, header ++ Prompt prompt :: tr1)
    end.
Proof.
  unfold run_menu.
  change (while_true (S (length (c :: rest))) body (c :: rest))
    with (bind body (λ fl, match fl with
                           | Break => ret tt
                           | Continue => while_true (S (length rest)) body
                           end) (c :: rest)).
  unfold bind at 1. rewrite menu_round_cons.
  destruct (dispatch c rest) as [[o1 ins1] tr1] eqn:Ed.
  destruct (dispatch_tame _ _ _ _ _ Ed) as [Hsuf _]. apply suffix_length in Hsuf.
  destruct o1 as [[]|e| |]; try done.
  by rewrite (rounds_bound_irrelevant (S (length rest)) (S (length ins1)) ins1) by lia.
Qed.

(** What the choices can raise, the loop can raise, and nothing else: here
    for a choice that may itself be the line that is no number. *)
Lemma run_menu_raises :
  (∀ c ins e ins' tr, dispatch c ins = (Raised e, ins', tr) →
     e = ValueError ∧ ∃ line, line ∈ c :: ins ∧ py_int line = None) →
  complains (run_menu body).
Proof.
  intros Hc ins. unfold run_menu. generalize (S (length ins)) as fuel.
  intros fuel. revert ins. induction fuel as [|fuel IH]; intros ins e ins' tr; [done |].
  simpl. unfold bind. destruct ins as [|c rest].
  { by rewrite menu_round_nil. }
  rewrite menu_round_cons.
  destruct (dispatch c rest) as [[o1 ins1] tr1] eqn:Ed.
  destruct o1 as [[]|e1| |]; try done.
  - destruct (dispatch_tame _ _ _ _ _ Ed) as [[k ->] _].
    destruct (while_true fuel body ins1) as [[o2 ins2] tr2] eqn:Ew.
    intros [= -> <- <-]. destruct (IH _ _ _ _ Ew) as (-> & line & Hin & Hline).
    split; [done |]. exists line. split; [| done].
    apply list_elem_of_further, elem_of_app. by right.
  - intros [= -> <- <-]. by apply Hc in Ed.
Qed.

Lemma run_menu_complains : (∀ c, complains (dispatch c)) → complains (run_menu body).
Proof.
  intros Hc. apply run_menu_raises. intros c ins e ins' tr Hrun.
  destruct (Hc _ _ _ _ _ Hrun) as (-> & line & Hin & Hline).
  split; [done |]. exists line. split; [by apply list_elem_of_further | done].
Qed.
End MenuRounds.

(** ** The menu of src/shree.py *)

(** X5: whatever is typed, the menu of src/shree.py raises nothing, its
    [Call]s taken to return: it either returns, and then the line [3] was
    typed, or it waits for a line that was not typed yet. *)
Theorem X5_shree_menu_returns_on_3 (ins : list string) o ins' tr :
  Shree.menu ins = (o, ins', tr) →
  (o = Returned tt ∧ "3" ∈ ins) ∨ o = Blocked.
Proof.
  intros Hrun. destruct (shree_menu_ends _ _ _ _ Hrun) as (Hfuel & Hquiet & Hexit).
  destruct o as [[]|e| |]; [left; auto | by destruct (Hquiet e) | by right | done].
Qed.

Lemma X5_shree_menu_returns_on_3_witness :
  Shree.menu ["7"; "3"; "1"] =
    (Returned tt, ["1"],
     shree_menu_shown ++ [Print "Invalid choice. Please try again."] ++ shree_menu_shown) ∧
  ((Returned tt = Returned tt ∧ "3" ∈ ["7"; "3"; "1"]) ∨ Returned tt = @Blocked unit).
Proof.
  split; [reflexivity |].
  apply (X5_shree_menu_returns_on_3 ["7"; "3"; "1"] (Returned tt) ["1"]
           (shree_menu_shown ++ [Print "Invalid choice. Please try again."]
            ++ shree_menu_shown)).
  reflexivity.
Defined.

(** X6: a round of the menu of src/shree.py.  The line [3] ends the loop
    and leaves the later lines unread; the line [1] runs the analysis and any
    line other than [1], [2], [3] gets the invalid-choice message, and in both
    cases the menu starts again on the lines that follow. *)
Theorem X6_shree_menu_round (c : string) (ins : list string) :
  (c = "3" → Shree.menu (c :: ins) = (Returned tt, ins, shree_menu_shown)) ∧
  (c = "1" →
   Shree.menu (c :: ins) =
     let '(o, ins', tr) := Shree.menu ins in
     (o, ins', shree_menu_shown ++ [Call "run_analysis" []] ++ tr)) ∧
  (c ≠ "1" → c ≠ "2" → c ≠ "3" →
   Shree.menu (c :: ins) =
     let '(o, ins', tr) := Shree.menu ins in
     (o, ins', shree_menu_shown ++ [Print "Invalid choice. Please try again."] ++ tr)).
Proof.
  pose proof (run_menu_cons Shree.menu_text
                [Print (nl +:+ "1. Run Sorting Analysis");
                 Print "2. Show Comparison Charts"; Print "3. Exit"]
                "Enter your choice: " Shree.menu_dispatch
                (λ _, eq_refl) shree_dispatch_tame c ins) as Hround.
  change (run_menu _) with Shree.menu in Hround.
  repeat split.
  - intros ->. by rewrite Hround.
  - intros ->. rewrite Hround, shree_dispatch_1.
    by destruct (Shree.menu ins) as [[o ins'] tr].
  - intros H1 H2 H3. rewrite Hround, shree_dispatch_other by done.
    by destruct (Shree.menu ins) as [[o ins'] tr].
Qed.

Lemma X6_shree_menu_round_witness :
  Shree.menu ("exit" :: ["3"]) =
    let '(o, ins', tr) := Shree.menu ["3"] in
    (o, ins', shree_menu_shown ++ [Print "Invalid choice. Please try again."] ++ tr).
Proof. by apply (X6_shree_menu_round "exit" ["3"]). Defined.

(** X7: [chart_menu] of src/shree.py asks its three questions whatever the
    answers are and reads exactly three lines; a chart is shown for an answer
    [y] or [Y] and for no other answer.  With fewer than three lines typed it
    waits. *)
Theorem X7_shree_chart_menu_three_questions (ins : list string) :
  (∀ a b c rest, ins = a :: b :: c :: rest →
     Shree.chart_menu ins =
       (Returned tt, rest,
        chart_question "random" a ++ chart_question "sorted" b
        ++ chart_question "reverse_sorted" c)) ∧
  ((length ins < 3)%nat → ∃ tr, Shree.chart_menu ins = (Blocked, [], tr)).
Proof.
  split.
  - intros a b c rest ->. unfold Shree.chart_menu, chart_question.
    cbn [for_in]. unfold bind, mbind, io_bind, bind, input, call, emit.
    destruct (decide (a = "y" ∨ a = "Y")); simpl.
    all: destruct (decide (b = "y" ∨ b = "Y")); simpl.
    all: by destruct (decide (c = "y" ∨ c = "Y")).
  - intros Hlen. unfold Shree.chart_menu.
    destruct ins as [|a [|b [|c rest]]]; [| | | simpl in Hlen; lia].
    all: cbn [for_in]; unfold bind, mbind, io_bind, bind, input, call, emit.
    + eexists; reflexivity.
    + destruct (decide (a = "y" ∨ a = "Y")); eexists; reflexivity.
    + destruct (decide (a = "y" ∨ a = "Y")); simpl.
      all: destruct (decide (b = "y" ∨ b = "Y")); eexists; reflexivity.
Qed.

Lemma X7_shree_chart_menu_three_questions_witness :
  Shree.chart_menu ["yes"; "Y"; "n"; "3"] =
    (Returned tt, ["3"],
     chart_question "random" "yes" ++ chart_question "sorted" "Y"
     ++ chart_question "reverse_sorted" "n").
Proof.
  by apply (X7_shree_chart_menu_three_questions ["yes"; "Y"; "n"; "3"]).
Defined.

(** ** What the menu scripts can raise *)

Lemma quiet_complains {A : Type} (m : io A) : quiet m → complains m.
Proof. intros Hq ins e ins' tr Hrun. by apply Hq in Hrun. Qed.

Lemma complains_bind {A B : Type} (m : io A) (f : A → io B) :
  tame m → complains m → (∀ a, complains (f a)) → complains (m ≫= f).
Proof.
  intros Ht Hm Hf ins e ins' tr. unfold mbind, io_bind, bind.
  destruct (m ins) as [[o1 ins1] tr1] eqn:Em.
  destruct o1 as [a|e1| |]; try done.
  - destruct (f a ins1) as [[o2 ins2] tr2] eqn:Ef.
    intros [= -> <- <-]. destruct (Hf _ _ _ _ _ Ef) as (-> & line & Hin & Hline).
    split; [done |]. exists line. split; [| done].
    destruct (Ht _ _ _ _ Em) as [[k ->] _]. apply elem_of_app. by right.
  - intros [= <- <- <-]. by apply Hm in Em.
Qed.

(** [int(input(...))]: the line just read is the one that may not parse. *)
Lemma complains_input_int {B : Type} (prompt : string) (k : Z → io B) :
  (∀ n, complains (k n)) → complains (line ← input prompt; n ← int line; k n).
Proof.
  intros Hk [|l ins] e ins' tr; [done |].
  unfold mbind, io_bind, bind, input, int.
  destruct (py_int l) as [n|] eqn:Hl; simpl.
  - destruct (k n ins) as [[o2 ins2] tr2] eqn:Ek.
    intros [= -> <- <-]. destruct (Hk _ _ _ _ _ Ek) as (-> & line & Hin & Hline).
    split; [done |]. exists line. split; [by apply list_elem_of_further | done].
  - intros [= <- <- <-]. split; [done |]. exists l. split; [apply list_elem_of_here | done].
Qed.

Lemma quiet_try_ValueError {A : Type} (body handler : io A) :
  complains body → quiet handler → quiet (try_except body ValueError handler).
Proof.
  intros Hb Hh ins e ins' tr. unfold try_except.
  destruct (body ins) as [[o1 ins1] tr1] eqn:Eb.
  destruct o1 as [a|e1| |]; try done.
  case_decide as He.
  - destruct (handler ins1) as [[o2 ins2] tr2] eqn:Eh.
    intros [= -> <- <-]. by apply Hh in Eh.
  - intros [= -> <- <-]. by destruct (Hb _ _ _ _ Eb) as [-> _].
Qed.

Lemma analyiz_display_data_complains (data : frame) :
  complains (Analyiz.display_data data).
Proof.
  apply complains_input_int. intros n. apply quiet_complains, quiet_emit.
Qed.

Lemma analyiz_dispatch_complains (data : frame) (c : string) :
  complains (Analyiz.menu_dispatch data c).
Proof.
  unfold Analyiz.menu_dispatch. case_decide.
  { apply complains_bind; [| apply analyiz_display_data_complains |].
    - unfold Analyiz.display_data. follow_code.
    - intros []. apply quiet_complains, quiet_ret. }
  apply quiet_complains. unfold print, call. follow_code.
Qed.

(** X8: on typed lines of ASCII characters, the menu loop of
    src/analyiz.py, its [Call]s taken to return, ends in one of three ways:
    it returns, and then the line [5] was typed; or it raises [ValueError],
    and then a typed line does not read as a number; or it waits for a
    line. *)
Theorem X8_analyiz_menu_ways_out (data : frame) (ins : list string) o ins' tr :
  Forall ascii_line ins →
  Analyiz.menu_loop data ins = (o, ins', tr) →
  (o = Returned tt ∧ "5" ∈ ins) ∨
  (o = Raised ValueError ∧ ∃ line, line ∈ ins ∧ py_int line = None) ∨
  o = Blocked.
Proof.
  intros _ Hrun. destruct (analyiz_menu_returns _ _ _ _ _ Hrun) as [Hfuel Hexit].
  destruct o as [[]|e| |]; [left; auto | | by right; right | done].
  right; left.
  destruct (run_menu_complains Analyiz.menu_text _ "Enter your choice: "
              (Analyiz.menu_dispatch data) (λ _, eq_refl)
              (analyiz_dispatch_tame data) (analyiz_dispatch_complains data)
              _ _ _ _ Hrun) as [-> Hline].
  done.
Qed.

Lemma X8_analyiz_menu_ways_out_witness :
  Forall ascii_line ["9"; "1"; "1"; "5"; "1"] ∧
  Analyiz.menu_loop [["a"]; ["b"]] ["9"; "1"; "1"; "5"; "1"] =
    (Returned tt, ["1"],
     main_menu_shown ++ [Print "Invalid choice."] ++ main_menu_shown
     ++ [Prompt "How many rows of data do you wish to print? "; PrintFrame [["a"]]]
     ++ main_menu_shown) ∧
  ((Returned tt = Returned tt ∧ "5" ∈ ["9"; "1"; "1"; "5"; "1"]) ∨
   (Returned tt = Raised ValueError ∧
    ∃ line, line ∈ ["9"; "1"; "1"; "5"; "1"] ∧ py_int line = None) ∨
   Returned tt = @Blocked unit).
Proof.
  assert (Forall ascii_line ["9"; "1"; "1"; "5"; "1"]) as Hlines
    by (repeat (constructor; [reflexivity |]); constructor).
  split; [exact Hlines |]. split; [reflexivity |].
  eapply (X8_analyiz_menu_ways_out [["a"]; ["b"]] ["9"; "1"; "1"; "5"; "1"]).
  - exact Hlines.
  - reflexivity.
Defined.

(** X9: a round of the menu of src/analyiz.py.  The line [5] ends the loop
    and leaves the later lines unread; a line other than [1] to [5] gets the
    message and the menu starts again on the lines that follow. *)
Theorem X9_analyiz_menu_round (data : frame) (c : string) (ins : list string) :
  (c = "5" → Analyiz.menu_loop data (c :: ins) = (Returned tt, ins, main_menu_shown)) ∧
  (c ≠ "1" → c ≠ "2" → c ≠ "3" → c ≠ "4" → c ≠ "5" →
   Analyiz.menu_loop data (c :: ins) =
     let '(o, ins', tr) := Analyiz.menu_loop data ins in
     (o, ins', main_menu_shown ++ [Print "Invalid choice."] ++ tr)).
Proof.
  pose proof (run_menu_cons Analyiz.menu_text
                [Print (nl +:+ "Main Menu:"); Print "1. Display data";
                 Print "2. Choose algorithm"; Print "3. Compare two algorithms";
                 Print "4. Compare all algorithms"; Print "5. Exit"]
                "Enter your choice: " (Analyiz.menu_dispatch data)
                (λ _, eq_refl) (analyiz_dispatch_tame data) c ins) as Hround.
  change (run_menu _) with (Analyiz.menu_loop data) in Hround.
  split.
  - intros ->. by rewrite Hround.
  - intros H1 H2 H3 H4 H5. rewrite Hround, analyiz_dispatch_other by done.
    by destruct (Analyiz.menu_loop data ins) as [[o ins'] tr].
Qed.

Lemma X9_analyiz_menu_round_witness :
  Analyiz.menu_loop [] ("5" :: ["1"; "abc"]) = (Returned tt, ["1"; "abc"], main_menu_shown).
Proof. by apply (X9_analyiz_menu_round [] "5" ["1"; "abc"]). Defined.

(** ** src/ml_procedural.py: prompts that parse numbers *)

(** X10: [display_data] of src/ml_procedural.py reads one line and returns,
    whatever line of ASCII characters it is given: a line that is a number
    [n] prints [data.head(min(n, 200))], any other line prints the request
    for a valid number, and nothing is raised. *)
Theorem X10_ml_display_data_always_returns (data : frame) (line : string)
    (rest : list string) :
  ascii_line line →
  MlProcedural.display_data data (line :: rest) =
    (Returned tt, rest,
     [Prompt "How many rows would you like to print? (up to 200): ";
      match py_int line with
      | Some n => PrintFrame (head (Z.min n 200) data)
      | None => Print "Please enter a valid number."
      end]).
Proof.
  intros _.
  unfold MlProcedural.display_data, try_except, mbind, io_bind, bind, int.
  simpl. destruct (py_int line) as [n|]; simpl; [| done].
  case_bool_decide; by rewrite ?Z.min_r, ?Z.min_l by lia.
Qed.

Lemma X10_ml_display_data_always_returns_witness :
  ascii_line "2.5" ∧
  MlProcedural.display_data [["a"]; ["b"]; ["c"]] ["2.5"; "x"] =
    (Returned tt, ["x"],
     [Prompt "How many rows would you like to print? (up to 200): ";
      Print "Please enter a valid number."]).
Proof.
  split; [reflexivity |].
  exact (X10_ml_display_data_always_returns [["a"]; ["b"]; ["c"]] "2.5" ["x"] eq_refl).
Defined.

Lemma ml_display_data_quiet (data : frame) : quiet (MlProcedural.display_data data).
Proof.
  apply quiet_try_ValueError; [| apply quiet_emit].
  apply complains_input_int. intros n. apply quiet_complains, quiet_emit.
Qed.

Lemma ml_compare_two_complains : complains MlProcedural.compare_two_algorithms.
Proof.
  unfold MlProcedural.compare_two_algorithms.
  apply complains_bind; [apply tame_emit | apply quiet_complains, quiet_emit |].
  intros _. apply complains_input_int. intros algo1.
  apply complains_input_int. intros algo2.
  apply quiet_complains. unfold call. follow_code.
Qed.

Lemma ml_dispatch_complains (data : frame) (choice : Z) :
  complains (MlProcedural.menu_dispatch data choice).
Proof.
  unfold MlProcedural.menu_dispatch. repeat case_decide.
  - apply quiet_complains. apply quiet_bind; [apply ml_display_data_quiet |].
    intros []. apply quiet_ret.
  - apply complains_bind; [apply tame_emit | apply quiet_complains, quiet_emit |].
    intros _. apply complains_input_int. intros algo_choice.
    apply quiet_complains. unfold call. follow_code.
  - apply complains_bind; [| apply ml_compare_two_complains |].
    + unfold MlProcedural.compare_two_algorithms, print, call. follow_code.
    + intros []. apply quiet_complains, quiet_ret.
  - apply quiet_complains.
    unfold MlProcedural.compare_all_algorithms, print, call. follow_code.
  - apply quiet_complains. unfold print. follow_code.
  - apply quiet_complains. unfold print. follow_code.
Qed.

Lemma ml_choice_raises (data : frame) (line : string) ins e ins' tr :
  (choice ← int line; MlProcedural.menu_dispatch data choice) ins = (Raised e, ins', tr) →
  e = ValueError ∧ ∃ l, l ∈ line :: ins ∧ py_int l = None.
Proof.
  unfold int. destruct (py_int line) as [choice|] eqn:Hline.
  - cbv beta iota delta [mbind io_bind bind ret].
    destruct (MlProcedural.menu_dispatch data choice ins) as [[o2 ins2] tr2] eqn:Ed.
    intros [= -> <- <-].
    destruct (ml_dispatch_complains _ _ _ _ _ _ Ed) as (-> & l & Hin & Hl).
    split; [done |]. exists l. split; [by apply list_elem_of_further | done].
  - intros [= <- <- <-]. split; [done |]. exists line.
    split; [apply list_elem_of_here | done].
Qed.

(** X11: on typed lines of ASCII characters, the menu loop of
    src/ml_procedural.py, its [Call]s taken to return, ends in one of three
    ways: it returns, and then a line that reads as the number 5 was typed;
    or it raises [ValueError], and then a typed line does not read as a
    number; or it waits for a line. *)
Theorem X11_ml_menu_ways_out (data : frame) (ins : list string) o ins' tr :
  Forall ascii_line ins →
  MlProcedural.menu_loop data ins = (o, ins', tr) →
  (o = Returned tt ∧ ∃ line, line ∈ ins ∧ py_int line = Some 5) ∨
  (o = Raised ValueError ∧ ∃ line, line ∈ ins ∧ py_int line = None) ∨
  o = Blocked.
Proof.
  intros _ Hrun. destruct (ml_menu_returns _ _ _ _ _ Hrun) as [Hfuel Hexit].
  destruct o as [[]|e| |]; [left; auto | | by right; right | done].
  right; left.
  destruct (run_menu_raises MlProcedural.menu_text _ "Enter your choice: "
              (λ line, choice ← int line; MlProcedural.menu_dispatch data choice)
              (λ _, eq_refl) (ml_dispatch_tame data) (ml_choice_raises data)
              _ _ _ _ Hrun) as [-> Hline].
  done.
Qed.

Lemma X11_ml_menu_ways_out_witness :
  Forall ascii_line ["1"; "abc"; " 5 "; "x"] ∧
  MlProcedural.menu_loop [["a"]] ["1"; "abc"; " 5 "; "x"] =
    (Returned tt, ["x"],
     main_menu_shown
     ++ [Prompt "How many rows would you like to print? (up to 200): ";
         Print "Please enter a valid number."]
     ++ main_menu_shown ++ [Print "Exiting program."]) ∧
  ((Returned tt = Returned tt ∧
    ∃ line, line ∈ ["1"; "abc"; " 5 "; "x"] ∧ py_int line = Some 5) ∨
   (Returned tt = Raised ValueError ∧
    ∃ line, line ∈ ["1"; "abc"; " 5 "; "x"] ∧ py_int line = None) ∨
   Returned tt = @Blocked unit).
Proof.
  assert (Forall ascii_line ["1"; "abc"; " 5 "; "x"]) as Hlines
    by (repeat (constructor; [reflexivity |]); constructor).
  split; [exact Hlines |]. split; [reflexivity |].
  eapply (X11_ml_menu_ways_out [["a"]] ["1"; "abc"; " 5 "; "x"]).
  - exact Hlines.
  - reflexivity.
Defined.

(** X12: [compare_two_algorithms] of src/ml_procedural.py reads both numbers
    before it runs anything.  On two lines of ASCII characters: if the first
    line is no number the second is not read; if the second is no number the
    first algorithm is not run; with two numbers it runs the algorithm of
    each number that is 1 or 2, in order, and says nothing about any other
    number. *)
Theorem X12_ml_compare_two_reads_before_running (line1 line2 : string)
    (rest : list string) :
  ascii_line line1 → ascii_line line2 →
  (py_int line1 = None →
   MlProcedural.compare_two_algorithms (line1 :: line2 :: rest) =
     (Raised ValueError, line2 :: rest,
      [Print ("1. Linear Regression" +:+ nl +:+ "2. KNN");
       Prompt "Choose the first algorithm to compare: "])) ∧
  (∀ algo1, py_int line1 = Some algo1 → py_int line2 = None →
   MlProcedural.compare_two_algorithms (line1 :: line2 :: rest) =
     (Raised ValueError, rest,
      [Print ("1. Linear Regression" +:+ nl +:+ "2. KNN");
       Prompt "Choose the first algorithm to compare: ";
       Prompt "Choose the second algorithm to compare: "])) ∧
  (∀ algo1 algo2, py_int line1 = Some algo1 → py_int line2 = Some algo2 →
   MlProcedural.compare_two_algorithms (line1 :: line2 :: rest) =
     (Returned tt, rest,
      [Print ("1. Linear Regression" +:+ nl +:+ "2. KNN");
       Prompt "Choose the first algorithm to compare: ";
       Prompt "Choose the second algorithm to compare: "]
      ++ ml_algorithm_run algo1 ++ ml_algorithm_run algo2)).
Proof.
  intros _ _.
  unfold MlProcedural.compare_two_algorithms, mbind, io_bind, bind, int, print,
    call, emit, input, ml_algorithm_run.
  repeat split.
  - intros H1. rewrite H1. done.
  - intros algo1 H1 H2. rewrite H1. simpl. rewrite H2. done.
  - intros algo1 algo2 H1 H2. rewrite H1. simpl. rewrite H2. simpl.
    destruct (decide (algo1 = 1)), (decide (algo1 = 2)),
      (decide (algo2 = 1)), (decide (algo2 = 2)); reflexivity.
Qed.

Lemma X12_ml_compare_two_reads_before_running_witness :
  ascii_line "1" ∧ ascii_line "two" ∧
  MlProcedural.compare_two_algorithms ("1" :: "two" :: ["5"]) =
    (Raised ValueError, ["5"],
     [Print ("1. Linear Regression" +:+ nl +:+ "2. KNN");
      Prompt "Choose the first algorithm to compare: ";
      Prompt "Choose the second algorithm to compare: "]).
Proof.
  split; [reflexivity |]. split; [reflexivity |].
  by apply (X12_ml_compare_two_reads_before_running "1" "two" ["5"] eq_refl eq_refl)
    with (algo1 := 1).
Defined.

(** ** The main loop of src/eye.py *)

Lemma eye_dispatch_tame (c : string) : tame (Eye.main_dispatch c).
Proof. unfold Eye.main_dispatch, Eye.analyse, print, call. follow_code. Qed.

Lemma eye_dispatch_quiet (c : string) : quiet (Eye.main_dispatch c).
Proof. unfold Eye.main_dispatch, Eye.analyse, print, call. follow_code. Qed.

Lemma eye_analyse_no_break (types : list string) ins ins' tr :
  Eye.analyse types ins ≠ (Returned Break, ins', tr).
Proof.
  unfold Eye.analyse, mbind, io_bind, bind, call, emit, input.
  destruct ins as [|l ins]; [done |]. by case_decide.
Qed.

Lemma eye_dispatch_break (c : string) ins ins' tr :
  Eye.main_dispatch c ins = (Returned Break, ins', tr) → c = "4".
Proof.
  unfold Eye.main_dispatch. repeat case_decide; try done.
  all: intros Hrun; by apply eye_analyse_no_break in Hrun.
Qed.

(** X13: src/eye.py reads shree.csv outside any [try], so every exception
    of the read ends the script before a menu is shown; once the file is read
    the loop, its [Call]s taken to return, raises nothing and returns only
    after the line [4] was typed. *)
Theorem X13_eye_main_ways_out (fs : filesystem) (ins : list string) :
  (∀ e, read_csv fs "shree.csv" = inr e → Eye.main fs ins = (Raised e, ins, [])) ∧
  (∀ df o ins' tr, read_csv fs "shree.csv" = inl df →
     Eye.main fs ins = (o, ins', tr) →
     (o = Returned tt ∧ "4" ∈ ins) ∨ o = Blocked).
Proof.
  split.
  - intros e He. unfold Eye.main, mbind, io_bind, bind, pd_read_csv. by rewrite He.
  - intros df o ins' tr Hdf. unfold Eye.main, mbind, io_bind, bind, pd_read_csv.
    rewrite Hdf. simpl.
    destruct (run_menu Eye.main_body ins) as [[o2 ins2] tr2] eqn:Hrun.
    intros [= <- <- <-].
    destruct (run_menu_exit Eye.main_text
                [Print (nl +:+ "1. Small Data" +:+ nl +:+ "2. Medium Data" +:+ nl
                        +:+ "3. Large Data" +:+ nl +:+ "4. Exit")]
                "Select dataset size: " Eye.main_dispatch (λ c, c = "4")
                (λ _, eq_refl) eye_dispatch_tame eye_dispatch_break
                ins o2 ins2 tr2 Hrun) as [Hfuel Hexit].
    destruct o2 as [[]|e| |]; [left | | by right | done].
    + split; [done |]. by destruct (Hexit eq_refl) as (c & Hin & ->).
    + by apply (rounds_quiet Eye.main_text _ "Select dataset size: " Eye.main_dispatch
                  (λ _, eq_refl) _ eye_dispatch_quiet) in Hrun.
Qed.

Lemma X13_eye_main_ways_out_witness :
  read_csv demo_fs "gone.csv" = inr FileNotFoundError ∧
  read_csv demo_fs "shree.csv" = inl [["1"; "2"]] ∧
  Eye.main demo_fs ["1"; "n"; "4"; "x"] =
    (Returned tt, ["x"],
     [Print (nl +:+ "1. Small Data" +:+ nl +:+ "2. Medium Data" +:+ nl
             +:+ "3. Large Data" +:+ nl +:+ "4. Exit");
      Prompt "Select dataset size: ";
      Call "run_sorting_analysis" Eye.small_types;
      Prompt "Do you want to see the chart? (y/n): ";
      Print (nl +:+ "1. Small Data" +:+ nl +:+ "2. Medium Data" +:+ nl
             +:+ "3. Large Data" +:+ nl +:+ "4. Exit");
      Prompt "Select dataset size: "]) ∧
  ((Returned tt = Returned tt ∧ "4" ∈ ["1"; "n"; "4"; "x"]) ∨ Returned tt = @Blocked unit).
Proof.
  split; [reflexivity |]. split; [reflexivity |]. split; [reflexivity |].
  destruct (X13_eye_main_ways_out demo_fs ["1"; "n"; "4"; "x"]) as [_ Hloop].
  eapply (Hloop [["1"; "2"]]); reflexivity.
Defined.

(** ** The comparisons of src/analyiz.py *)

(** X14: [compare_two_algorithms] of src/analyiz.py, called as the menu calls
    it, prints one line for each of the two algorithms, but plots one bar
    for each different algorithm: one bar when an algorithm is compared with
    itself. *)
Theorem X14_analyiz_compare_two_bars (mse accuracy : spec_float)
    (show : spec_float → string) (algo1 algo2 : string) (ins : list string) :
  algo1 = "Linear Regression" ∨ algo1 = "KNN" →
  algo2 = "Linear Regression" ∨ algo2 = "KNN" →
  Analyiz.compare_two_algorithms mse accuracy show algo1 algo2 ins =
    (Returned tt, ins,
     [Print (analyiz_report mse accuracy show algo1);
      Print (analyiz_report mse accuracy show algo2);
      Call "plt.bar" (if decide (algo1 = algo2) then [algo1] else [algo1; algo2])]).
Proof. by intros [-> | ->] [-> | ->]. Qed.

Lemma X14_analyiz_compare_two_bars_witness :
  Analyiz.compare_two_algorithms (S754_zero false) (S754_zero false) (λ _, "0.0")
      "KNN" "KNN" [] =
    (Returned tt, [],
     [Print "KNN Accuracy: 0.0"; Print "KNN Accuracy: 0.0"; Call "plt.bar" ["KNN"]]).
Proof.
  apply (X14_analyiz_compare_two_bars (S754_zero false) (S754_zero false) (λ _, "0.0")
           "KNN" "KNN" []); by right.
Defined.

(** X15: the "best fit" of [compare_all_algorithms] of src/analyiz.py is the
    entry with the smaller number among the regression's error and the
    classifier's accuracy: KNN exactly when its accuracy is below the error,
    Linear Regression otherwise, also on a tie or a NaN, and never K-Means,
    whose bar has height 0. *)
Theorem X15_analyiz_best_fit_is_smaller_number (mse accuracy : spec_float) :
  Analyiz.best_fit_algo (Analyiz.compare_all_results mse accuracy) =
    Some (if SFltb accuracy mse then "KNN" else "Linear Regression") ∧
  (Analyiz.compare_all_results mse accuracy).*1 =
    ["Linear Regression"; "KNN"; "K-Means Clustering"] ∧
  Analyiz.bar_heights (Analyiz.compare_all_results mse accuracy) =
    [mse; accuracy; S754_zero false].
Proof.
  split; [| done].
  unfold Analyiz.best_fit_algo, Analyiz.compare_all_results. simpl.
  by destruct (SFltb accuracy mse).
Qed.

(** ** The scripts from their first line *)

(** X16: [menu()] of src/analyiz.py and of src/ml_procedural.py shows no menu
    and reads no line when the data file is missing: it prints the error of
    [load_data] and returns.  Any other exception of the read leaves [menu()],
    and a frame that was read is handed to the menu loop. *)
Theorem X16_menu_needs_the_file (fs : filesystem) (prepare : frame → frame)
    (ins : list string) :
  let file_path := path_join fs (getcwd fs) "data.csv" in
  (read_csv fs file_path = inr FileNotFoundError →
   Analyiz.menu fs prepare ins =
     (Returned tt, ins,
      [Print ("Error: The file '" +:+ file_path +:+ "' does not exist.")])) ∧
  (read_csv fs (ml_file_path fs) = inr FileNotFoundError →
   MlProcedural.menu fs prepare ins =
     (Returned tt, ins,
      ml_notice fs
      ++ [Print ("Error: The file '" +:+ ml_file_path fs +:+ "' does not exist.")])) ∧
  (∀ e, e ≠ FileNotFoundError → read_csv fs file_path = inr e →
   Analyiz.menu fs prepare ins = (Raised e, ins, [])) ∧
  (∀ data, read_csv fs file_path = inl data →
   Analyiz.menu fs prepare ins =
     let '(o, ins', tr) := Analyiz.menu_loop (prepare data) ins in
     (o, ins', Print "File loaded successfully." :: tr)).
Proof.
  intros file_path. repeat split.
  - intros Hread.
    unfold Analyiz.menu, Analyiz.load_data, try_except, mbind, io_bind, bind,
      pd_read_csv.
    fold file_path. by rewrite Hread.
  - unfold MlProcedural.menu, MlProcedural.load_data, ml_file_path, ml_notice,
      try_except, mbind, io_bind, bind, pd_read_csv.
    destruct (path_exists fs _); simpl; intros Hread; by rewrite Hread.
  - intros e He Hread.
    unfold Analyiz.menu, Analyiz.load_data, try_except, mbind, io_bind, bind,
      pd_read_csv.
    fold file_path. rewrite Hread. simpl. by rewrite decide_False.
  - intros data Hread.
    unfold Analyiz.menu, Analyiz.load_data, try_except, mbind, io_bind, bind,
      pd_read_csv.
    fold file_path. rewrite Hread. simpl.
    by destruct (Analyiz.menu_loop (prepare data) ins) as [[o ins'] tr].
Qed.

Lemma X16_menu_needs_the_file_witness :
  let fs := {| getcwd := "."; path_join := λ a b, a +:+ "/" +:+ b;
               path_exists := λ _, false;
               read_csv := λ _, inr FileNotFoundError |} in
  read_csv fs "./data.csv" = inr FileNotFoundError ∧
  Analyiz.menu fs (λ d, d) ["1"; "5"] =
    (Returned tt, ["1"; "5"],
     [Print "Error: The file './data.csv' does not exist."]).
Proof.
  intros fs. split; [reflexivity |].
  by apply (X16_menu_needs_the_file fs (λ d, d) ["1"; "5"]).
Defined.

(** X17: the menu script of src/4.py (lines 12-151) never asks for input
    and never ends in an exception: whatever the read and the preparation of
    the frame do, it reads no line, shows no prompt and returns.  Its [menu]
    is defined and not called. *)
Theorem X17_py4_script_never_prompts (fs : filesystem)
    (prepare : frame → frame + exn) (str_of : exn → string) (ins : list string) :
  ∃ tr, Py4.script fs prepare str_of ins = (Returned tt, ins, tr) ∧
        Forall (λ a, ¬ is_prompt a) tr.
Proof.
  unfold Py4.script, Py4.try_except_else, mbind, io_bind, bind, pd_read_csv,
    print, emit, raise.
  destruct (path_exists fs _); simpl.
  all: match goal with |- context [read_csv _ ?p] =>
         destruct (read_csv fs p) as [data|e] end; simpl.
  all: try destruct (prepare data) as [data'|e]; simpl.
  all: try (destruct (decide (e = FileNotFoundError)); simpl).
  all: eexists; split; [reflexivity |]; repeat constructor; simpl; tauto.
Qed.

(** ** The bonus rate as a function of the sales value *)

Lemma SFleb_refl_not_nan (v : spec_float) : SFleb v v = true ↔ v ≠ S754_nan.
Proof.
  unfold SFleb. destruct v as [s|s| |s m e]; simpl; try done.
  - by destruct s.
  - destruct s; rewrite Z.compare_refl;
      change (PosDef.Pos.compare_cont Eq m m) with (m ?= m)%positive;
      by rewrite Pos.compare_refl.
Qed.

(** Two numbers are always comparable: [c <= v] fails exactly when [v < c]. *)
Lemma SFleb_negb_ltb (c v : spec_float) :
  c ≠ S754_nan → v ≠ S754_nan → SFleb c v = negb (SFltb v c).
Proof.
  unfold SFleb, SFltb.
  destruct c as [sc|sc| |sc mc ec], v as [sv|sv| |sv mv ev];
    simpl; try done;
    repeat match goal with s : bool |- _ => destruct s end; simpl; try done.
  all: intros _ _; order_cases; simpl; try done; try lia.
Qed.

Lemma SFleb_trans (a b c : spec_float) :
  SFleb a b = true → SFleb b c = true → SFleb a c = true.
Proof.
  unfold SFleb.
  destruct a as [sa|sa| |sa ma ea], b as [sb|sb| |sb mb eb], c as [sc|sc| |sc mc ec];
    simpl; try done;
    repeat match goal with s : bool |- _ => destruct s end; simpl; try done.
  all: order_cases; simpl; try done; try lia.
Qed.

Lemma float_of_int_not_nan (n : Z) :
  SFleb (float_of_int n) (float_of_int n) = true → float_of_int n ≠ S754_nan.
Proof. apply SFleb_refl_not_nan. Qed.

(** The slabs as thresholds: for a number, the rate is decided by the first
    bound among 5, 10, 15, 999 that the value is below. *)
Lemma bonus_rate_thresholds (v : spec_float) :
  v ≠ S754_nan →
  bonus_rate v =
    if SFltb v (float_of_int 5) then 0
    else if SFltb v (float_of_int 10) then 10
    else if SFltb v (float_of_int 15) then 12
    else if SFltb v (float_of_int 999) then 15
    else 0.
Proof.
  intros Hv. unfold bonus_rate, bonus_slabs, match_slabs, in_slab.
  cbn [slab_min slab_max slab_bonus].
  rewrite !(SFleb_negb_ltb _ v) by (done || by apply float_of_int_not_nan).
  assert (∀ a b, SFltb (float_of_int a) (float_of_int b) = true →
                 SFltb v (float_of_int a) = true → SFltb v (float_of_int b) = true)
    as Hup.
  { intros a b Hab Hva. destruct (SFltb v (float_of_int b)) eqn:Hvb; [done |].
    assert (SFleb (float_of_int b) v = true) as Hbv.
    { rewrite SFleb_negb_ltb, Hvb; [done | | done].
      intros Hb. by rewrite Hb in Hab; destruct (float_of_int a). }
    pose proof (SFltb_leb_trans _ _ _ Hab Hbv) as Hav.
    assert (SFleb (float_of_int a) v = true) as Hle.
    { unfold SFleb. unfold SFltb in Hav. by destruct (SFcompare _ _) as [[]|]. }
    by rewrite (SFleb_not_ltb _ _ Hle) in Hva. }
  pose proof (Hup 0 5 eq_refl) as H05. pose proof (Hup 5 10 eq_refl) as H510.
  pose proof (Hup 10 15 eq_refl) as H1015.
  destruct (SFltb v (float_of_int 0)) eqn:E0, (SFltb v (float_of_int 5)) eqn:E5,
    (SFltb v (float_of_int 10)) eqn:E10, (SFltb v (float_of_int 15)) eqn:E15,
    (SFltb v (float_of_int 999)) eqn:E999; simpl; try done.
  all: try (by discriminate H05). all: try (by discriminate H510).
  all: try (by discriminate H1015).
Qed.

(** X18: the bonus rate of src/4.py as a function of the sales value in
    lakhs.  A NaN gets no bonus; a number gets 0 below 5 (negative values
    too), 10 from 5 and below 10, 12 from 10 and below 15, 15 from 15 and
    below 999, and 0 from 999 on. *)
Theorem X18_bonus_rate_by_thresholds (raw_sales : spec_float) :
  (sales_lakh raw_sales = S754_nan → matched_bonus raw_sales = 0) ∧
  (sales_lakh raw_sales ≠ S754_nan →
   matched_bonus raw_sales =
     if SFltb (sales_lakh raw_sales) (float_of_int 5) then 0
     else if SFltb (sales_lakh raw_sales) (float_of_int 10) then 10
     else if SFltb (sales_lakh raw_sales) (float_of_int 15) then 12
     else if SFltb (sales_lakh raw_sales) (float_of_int 999) then 15
     else 0).
Proof.
  split.
  - unfold matched_bonus. by intros ->.
  - apply bonus_rate_thresholds.
Qed.

Lemma X18_bonus_rate_by_thresholds_witness :
  sales_lakh (float_of_int 1250000) ≠ S754_nan ∧
  matched_bonus (float_of_int 1250000) = 12.
Proof.
  split; [done |].
  destruct (X18_bonus_rate_by_thresholds (float_of_int 1250000)) as [_ Hrate].
  by rewrite Hrate.
Defined.

(** X19: below 999 lakh a higher sales value never has a lower bonus rate;
    at 999 lakh the rate falls from 15 to 0. *)
Theorem X19_bonus_rate_monotone_below_999 (v w : spec_float) :
  SFleb v w = true → SFltb w (float_of_int 999) = true →
  bonus_rate v ≤ bonus_rate w.
Proof.
  intros Hvw Hw.
  assert (v ≠ S754_nan) as Hv by (intros ->; done).
  assert (w ≠ S754_nan) as Hw' by (intros ->; by destruct v).
  rewrite !bonus_rate_thresholds by done. rewrite Hw.
  assert (∀ c, SFltb w c = true → SFltb v c = true) as Hdown.
  { intros c. by apply SFleb_ltb_trans. }
  pose proof (Hdown (float_of_int 5)). pose proof (Hdown (float_of_int 10)).
  pose proof (Hdown (float_of_int 15)).
  destruct (SFltb w (float_of_int 5)), (SFltb w (float_of_int 10)),
    (SFltb w (float_of_int 15)); try (rewrite ?H, ?H0, ?H1 by done; simpl);
    repeat match goal with |- context [if ?b then _ else _] => destruct b end; lia.
Qed.

Lemma X19_bonus_rate_monotone_below_999_witness :
  SFleb (float_of_int 7) (float_of_int 12) = true ∧
  SFltb (float_of_int 12) (float_of_int 999) = true ∧
  bonus_rate (float_of_int 7) ≤ bonus_rate (float_of_int 12) ∧
  bonus_rate (float_of_int 998) = 15 ∧ bonus_rate (float_of_int 999) = 0.
Proof.
  split; [reflexivity |]. split; [reflexivity |].
  split; [| split; reflexivity].
  apply (X19_bonus_rate_monotone_below_999 (float_of_int 7) (float_of_int 12));
    reflexivity.
Defined.

(** ** What the key logger has written when it stops *)

(** X20: when the first escape release comes, the terminal of
    src/game_key_logger.py holds one line for each key pressed before it and
    then the stop notice, key_log.txt holds the same lines, each ended by a
    newline, without the notice, and no release has left a line. *)
Theorem X20_listener_writes_presses_only (before after : list event) (st : log) :
  Release esc ∉ before →
  let '(st', running) := listener (before ++ Release esc :: after) st in
  running = false ∧
  stdout st' = stdout st ++ pressed before ++ [nl +:+ "[Logger Stopped]"] ∧
  key_log st' = key_log st ++ ((λ line, line +:+ nl) <$> pressed before).
Proof. intros Hno. by rewrite listener_stopped. Qed.

Lemma X20_listener_writes_presses_only_witness :
  let '(st', running) :=
    listener ([Press esc "12:00:00"; Release (KeyCode None)]
              ++ Release esc :: [Press (KeyCode (Some "a")) "12:00:01"])
             {| stdout := []; key_log := [] |} in
  running = false ∧
  stdout st' = ["[12:00:00] Key Pressed: Key.esc"; nl +:+ "[Logger Stopped]"] ∧
  key_log st' = ["[12:00:00] Key Pressed: Key.esc" +:+ nl].
Proof.
  pose proof (X20_listener_writes_presses_only
                [Press esc "12:00:00"; Release (KeyCode None)]
                [Press (KeyCode (Some "a")) "12:00:01"]
                {| stdout := []; key_log := [] |}) as Hstop.
  destruct (listener _ _) as [st' running].
  destruct Hstop as (Hrun & Hout & Hfile); [| done].
  intros Hin. repeat (apply elem_of_cons in Hin as [Hin|Hin]; [discriminate |]).
  by apply elem_of_nil in Hin.
Defined.

(** ** The row prompt without a bound *)

(** X21: [display_data] of src/analyiz.py and of src/4.py has no bound on
    the rows.  Given a line of ASCII characters: a line that reads as
    [n >= 0] prints the first [n] rows, all of them when [n] is at least their
    number; a line that reads as [n < 0] prints all rows but the last [-n];
    any other line raises [ValueError] after the prompt, with nothing
    printed. *)
Theorem X21_display_data_unbounded (data : frame) (line : string) (rest : list string) :
  ascii_line line →
  Py4.display_data data (line :: rest) =
    match Analyiz.display_data data (line :: rest) with
    | (o, ins', tr) =>
        (o, ins', [Prompt "How many rows of data would you like to print? "] ++ drop 1 tr)
    end ∧
  (py_int line = None →
   Analyiz.display_data data (line :: rest) =
     (Raised ValueError, rest, [Prompt "How many rows of data do you wish to print? "])) ∧
  (∀ n, py_int line = Some n →
   ∃ rows, Analyiz.display_data data (line :: rest) =
     (Returned tt, rest,
      [Prompt "How many rows of data do you wish to print? "; PrintFrame rows]) ∧
     rows `prefix_of` data ∧
     Z.of_nat (length rows) =
       if decide (0 ≤ n) then Z.min n (Z.of_nat (length data))
       else Z.max 0 (Z.of_nat (length data) + n)).
Proof.
  intros _.
  unfold Py4.display_data, Analyiz.display_data, mbind, io_bind, bind, input, int,
    emit, raise, ret.
  split; [| split].
  - by destruct (py_int line).
  - by intros ->.
  - intros n ->. simpl. exists (head n data). split; [done |].
    unfold head. split; [case_decide; apply prefix_take |].
    case_decide; rewrite length_take; lia.
Qed.

Lemma X21_display_data_unbounded_witness :
  ascii_line "-1" ∧ py_int "-1" = Some (-1) ∧
  ∃ rows, Analyiz.display_data (replicate 300 []) ["-1"] =
    (Returned tt, [],
     [Prompt "How many rows of data do you wish to print? "; PrintFrame rows]) ∧
    Z.of_nat (length rows) = 299.
Proof.
  split; [reflexivity |]. split; [reflexivity |].
  destruct (X21_display_data_unbounded (replicate 300 []) "-1" [] eq_refl)
    as (_ & _ & Hnum).
  destruct (Hnum (-1) eq_refl) as (rows & Hrun & _ & Hlen).
  exists rows. split; [exact Hrun |].
  rewrite Hlen, length_replicate. reflexivity.
Defined.
